(** * AMD CDX bus: MSI support and the VFIO meta-driver

    A shallow embedding of [drivers/cdx/cdx_msi.c] and
    [drivers/vfio/cdx/main.c].  Machine integers are [Z] with the
    wrap-around of their C type written out; calls that leave the two
    files (bus controller, MSI core, memory management, user copies) are
    recorded in a call log and answered by an explicit environment. *)

From Stdlib Require Import ZArith Lia Bool String.
From stdpp Require Import base list.

Local Open Scope Z_scope.

(** ** Fixed-width integers and errno values *)

Module Kernel.

(** Conversion to an unsigned C integer of [w] bits. *)
Definition wrap (w x : Z) : Z := x mod 2 ^ w.

Definition u16 := wrap 16.
Definition u32 := wrap 32.
Definition u64 := wrap 64.

(** Conversion to a C [int]: the value modulo [2^32] in the range from
    [-2^31] up to [2^31 - 1]. *)
Definition s32 (x : Z) : Z := (x + 2 ^ 31) mod 2 ^ 32 - 2 ^ 31.

(** [include/uapi/asm-generic/errno-base.h] *)
Definition EPERM  : Z := 1.
Definition EIO    : Z := 5.
Definition ENOMEM : Z := 12.
Definition EACCES : Z := 13.
Definition EFAULT : Z := 14.
Definition EINVAL : Z := 22.

(** The error classes of the specification, read on a C return value. *)
Definition InvalidArgument (ret : Z) : Prop := ret = - EINVAL.
Definition PermissionDenied (ret : Z) : Prop :=
  ret = - EACCES \/ ret = - EPERM.
Definition IOError (ret : Z) : Prop := ret = - EIO.

(** A call log: every function returns its value together with the
    external calls it made, oldest first. *)
Definition logged (E A : Type) : Type := (A * list E)%type.

Definition pure {E A} (a : A) : logged E A := (a, []).
Definition bind {E A B} (m : logged E A) (k : A -> logged E B)
  : logged E B :=
  let '(a, l1) := m in
  let '(b, l2) := k a in
  (b, l1 ++ l2).
Definition emit {E} (e : E) : logged E unit := (tt, [e]).
(** An external call: its answer comes from the environment. *)
Definition extern {E A} (e : E) (answer : A) : logged E A := (answer, [e]).
Definition when {E} (c : bool) (m : logged E unit) : logged E unit :=
  if c then m else pure tt.

End Kernel.

Import Kernel.

Notation "'call' x <- m 'in' k" := (bind m (fun x => k))
  (at level 10, x name, m at level 100, k at level 200,
   format "'[v' 'call'  x  <-  m  'in' '/' k ']'").
Notation "'run' m 'in' k" := (bind m (fun _ => k))
  (at level 10, m at level 100, k at level 200,
   format "'[v' 'run'  m  'in' '/' k ']'").

(** ** Types of include/linux/cdx/cdx_bus.h, linux/ioport.h, linux/msi.h *)

Module CdxBus.

(** A bus reconfiguration request, [struct cdx_device_config]. *)
Inductive cdx_device_config :=
| CDX_DEV_MSI_CONF (msi_index : Z) (data : Z) (addr : Z)
| CDX_DEV_MSI_ENABLE (msi_enable : bool).

(** The controller's operations table; [dev_configure] takes the bus
    number, the device number and the request, and returns 0 or a
    negative errno. *)
Record cdx_controller := {
  dev_configure : Z -> Z -> cdx_device_config -> Z
}.

Record resource := {
  start : Z;
  end_ : Z;
  res_flags : Z
}.

Record cdx_device := {
  cdx : cdx_controller;
  res : list resource;
  res_count : Z;
  bus_num : Z;
  dev_num : Z;
  req_id : Z;          (* u32 *)
  num_msi : Z          (* u32 *)
}.

Record msi_msg := {
  address_lo : Z;      (* u32 *)
  address_hi : Z;      (* u32 *)
  data : Z             (* u32 *)
}.

Record msi_desc := {
  dev : cdx_device;
  msi_index : Z;       (* u16 *)
  msg : msi_msg
}.

End CdxBus.

Import CdxBus.

(** ** drivers/cdx/cdx_msi.c *)

Module CdxMsi.

(** Calls that leave the file. *)
Inductive extcall :=
| dev_configure_call (bus dev : Z) (cfg : cdx_device_config)
| dev_err (text : string)
| msi_setup_device_data_call
| msi_lock_descs
| msi_first_desc_call
| msi_unlock_descs
| msi_domain_alloc_irqs_call (nvec : Z).

(** What the MSI core answers for one device: the result of
    [msi_setup_device_data], the descriptors the device holds, and the
    result of [msi_domain_alloc_irqs] for its [int nvec]. *)
Record msi_core := {
  msi_setup_device_data : Z;
  msi_descs : list msi_desc;
  msi_domain_alloc_irqs : Z -> Z
}.

Definition is_alloc_call (c : extcall) : bool :=
  match c with msi_domain_alloc_irqs_call _ => true | _ => false end.

Definition msi_first_desc (m : msi_core) : option msi_desc :=
  head (msi_descs m).

Definition REQ_ID_SHIFT : Z := 10.

(** Convert an msi_desc to a globally unique identifier.
    [irq_hw_number_t] is [unsigned long], 64 bits wide. *)
Definition cdx_domain_calc_hwirq (d : cdx_device) (desc : msi_desc) : Z :=
  Z.lor (u64 (Z.shiftl (u64 (req_id d)) REQ_ID_SHIFT)) (msi_index desc).

Record msi_alloc_info := {
  desc : option msi_desc;
  hwirq : Z
}.

Definition cdx_msi_set_desc (arg : msi_alloc_info) (d : msi_desc)
  : msi_alloc_info :=
  {| desc := Some d; hwirq := cdx_domain_calc_hwirq (dev d) d |}.

(** The request [cdx_msi_write_msg] sends for a descriptor and a
    message. *)
Definition msi_conf_of (d : msi_desc) (m : msi_msg) : cdx_device_config :=
  CDX_DEV_MSI_CONF (msi_index d) (data m)
                   (address_hi m * 2 ^ 32 + address_lo m).

(** [static void cdx_msi_write_msg(irq_data, msg)]: the C function
    returns nothing; the result here is the descriptor after the call. *)
Definition cdx_msi_write_msg (msi_desc0 : msi_desc) (m : msi_msg)
  : logged extcall (unit * msi_desc) :=
  let cdx_dev := dev msi_desc0 in
  let msi_desc1 :=
    {| dev := dev msi_desc0; msi_index := msi_index msi_desc0; msg := m |} in
  let dev_config :=
    CDX_DEV_MSI_CONF
      (msi_index msi_desc1)
      (data (msg msi_desc1))
      (Z.lor (u64 (Z.shiftl (u64 (address_hi (msg msi_desc1))) 32))
             (address_lo (msg msi_desc1))) in
  call ret <- extern
      (dev_configure_call (bus_num cdx_dev) (dev_num cdx_dev) dev_config)
      (dev_configure (cdx cdx_dev) (bus_num cdx_dev) (dev_num cdx_dev)
                     dev_config) in
  run when (negb (ret =? 0))
        (emit (dev_err "Write MSI failed to CDX controller")) in
  pure (tt, msi_desc1).

(** [irq_count] is an [unsigned int]; [msi_domain_alloc_irqs] takes it
    as [int nvec]. *)
Definition cdx_msi_domain_alloc_irqs (m : msi_core) (irq_count : Z)
  : logged extcall Z :=
  call ret <- extern msi_setup_device_data_call (msi_setup_device_data m) in
  if negb (ret =? 0) then pure ret else
  run emit msi_lock_descs in
  call first <- extern msi_first_desc_call (msi_first_desc m) in
  let ret := match first with Some _ => - EINVAL | None => ret end in
  run emit msi_unlock_descs in
  if negb (ret =? 0) then pure ret else
  call ret <- extern (msi_domain_alloc_irqs_call (s32 irq_count))
                     (msi_domain_alloc_irqs m (s32 irq_count)) in
  run when (negb (ret =? 0)) (emit (dev_err "Failed to allocate IRQs")) in
  pure ret.

Definition cdx_enable_msi (cdx_dev : cdx_device) : logged extcall Z :=
  let dev_config := CDX_DEV_MSI_ENABLE true in
  call ret <- extern
      (dev_configure_call (bus_num cdx_dev) (dev_num cdx_dev) dev_config)
      (dev_configure (cdx cdx_dev) (bus_num cdx_dev) (dev_num cdx_dev)
                     dev_config) in
  run when (negb (ret =? 0)) (emit (dev_err "MSI enable failed")) in
  pure ret.

Definition cdx_disable_msi (cdx_dev : cdx_device) : logged extcall unit :=
  let dev_config := CDX_DEV_MSI_ENABLE false in
  call ret <- extern
      (dev_configure_call (bus_num cdx_dev) (dev_num cdx_dev) dev_config)
      (dev_configure (cdx cdx_dev) (bus_num cdx_dev) (dev_num cdx_dev)
                     dev_config) in
  run when (negb (ret =? 0)) (emit (dev_err "MSI disable failed")) in
  pure tt.

End CdxMsi.

(** ** drivers/vfio/cdx/main.c *)

Module VfioCdx.

Record vfio_cdx_region := {
  flags : Z;           (* u32 *)
  type : Z;            (* u32 *)
  addr : Z;            (* u64 *)
  size : Z             (* resource_size_t *)
}.

(** [regions] is [None] for a null pointer. *)
Record vfio_cdx_device := {
  regions : option (list vfio_cdx_region)
}.

Record vm_area_struct := {
  vm_start : Z;
  vm_end : Z;
  vm_pgoff : Z;
  vm_flags : Z;
  vm_page_prot : Z
}.

Record vfio_region_info := {
  ri_argsz : Z;
  ri_flags : Z;
  ri_index : Z;
  ri_size : Z;
  ri_offset : Z
}.

Record vfio_irq_info := {
  ii_argsz : Z;
  ii_flags : Z;
  ii_index : Z;
  ii_count : Z
}.

(** A user pointer: what [copy_from_user] reads there ([None] when the
    copy faults) and whether [copy_to_user] succeeds. *)
Record user_ptr (T : Type) := {
  readable : option T;
  writable : bool
}.
Arguments readable {T}.
Arguments writable {T}.

(** Constants and functions the file takes from headers and from the
    rest of the kernel: page geometry, the region offset shift of
    [private.h], the flag bits of the VFIO user interface and of
    [linux/ioport.h] and [linux/mm.h], the minimum argument sizes
    ([offsetofend] of the two info structures), the top of the user
    address space, the size of the resource array of a device, and the
    functions called by name. *)
Class Platform := {
  PAGE_SHIFT : Z;
  VFIO_CDX_OFFSET_SHIFT : Z;
  VFIO_REGION_INFO_FLAG_READ : Z;
  VFIO_REGION_INFO_FLAG_WRITE : Z;
  VFIO_REGION_INFO_FLAG_MMAP : Z;
  VFIO_IRQ_INFO_EVENTFD : Z;
  IORESOURCE_READONLY : Z;
  VM_READ : Z;
  VM_WRITE : Z;
  region_info_minsz : Z;
  irq_info_minsz : Z;
  TASK_SIZE : Z;
  MAX_CDX_DEV_RESOURCES : Z;
  resource_size : resource -> Z;
  pgprot_device : Z -> Z;
  cdx_dev_reset : cdx_device -> Z;
  io_remap_pfn_range : vm_area_struct -> Z -> Z -> Z -> Z -> Z
}.

(** Calls that leave the file. *)
Inductive extcall :=
| kfree_regions
| cdx_dev_reset_call
| dev_warn (text : string) (ret : Z)
| vfio_cdx_irqs_cleanup
| io_remap_pfn_range_call (vma : vm_area_struct) (addr pfn size prot : Z).

Section Code.
Context `{Platform}.

Definition PAGE_SIZE : Z := Z.shiftl 1 PAGE_SHIFT.
Definition PAGE_MASK : Z := Z.lnot (PAGE_SIZE - 1).

(** Modelled from the spec: [vfio_cdx_index_to_offset] of [private.h],
    which is not among the sources; the specification gives
    offset = index << OFFSET_SHIFT, here on the 64-bit offset field. *)
Definition vfio_cdx_index_to_offset (index : Z) : Z :=
  u64 (Z.shiftl index VFIO_CDX_OFFSET_SHIFT).

Definition zero_region : vfio_cdx_region :=
  {| flags := 0; type := 0; addr := 0; size := 0 |}.

(** [kcalloc(count, sizeof(struct vfio_cdx_region), GFP_KERNEL)]. *)
Definition kcalloc (ok : bool) (count : Z)
  : option (list vfio_cdx_region) :=
  if ok then Some (replicate (Z.to_nat count) zero_region) else None.

Definition set_flag (r : vfio_cdx_region) (bit : Z) : vfio_cdx_region :=
  {| flags := u32 (Z.lor (flags r) bit); type := type r;
     addr := addr r; size := size r |}.

(** One iteration of the loop of [vfio_cdx_open_device], on
    [regions[i]] and [cdx_dev->res[i]]. *)
Definition open_region (r0 : vfio_cdx_region) (rs : resource)
  : vfio_cdx_region :=
  let r1 := {| flags := flags r0; type := u32 (res_flags rs);
               addr := start rs; size := u64 (resource_size rs) |} in
  let r2 :=
    if (Z.land (addr r1) (Z.lnot PAGE_MASK) =? 0) &&
       (Z.land (size r1) (Z.lnot PAGE_MASK) =? 0)
    then set_flag r1 VFIO_REGION_INFO_FLAG_MMAP else r1 in
  let r3 := set_flag r2 VFIO_REGION_INFO_FLAG_READ in
  if Z.land (res_flags rs) IORESOURCE_READONLY =? 0
  then set_flag r3 VFIO_REGION_INFO_FLAG_WRITE else r3.

(** The flag word the loop body computes from a zeroed entry. *)
Definition region_flags (rs : resource) : Z :=
  let f1 :=
    if (Z.land (start rs) (Z.lnot PAGE_MASK) =? 0) &&
       (Z.land (u64 (resource_size rs)) (Z.lnot PAGE_MASK) =? 0)
    then VFIO_REGION_INFO_FLAG_MMAP else 0 in
  let f2 := Z.lor f1 VFIO_REGION_INFO_FLAG_READ in
  if Z.land (res_flags rs) IORESOURCE_READONLY =? 0
  then Z.lor f2 VFIO_REGION_INFO_FLAG_WRITE else f2.

(** The loop [for (i = 0; i < count; i++)], [n] iterations left;
    [None] when an index leaves an array. *)
Fixpoint open_loop (n : nat) (i : nat) (rs : list resource)
         (regs : list vfio_cdx_region) : option (list vfio_cdx_region) :=
  match n with
  | O => Some regs
  | S n' =>
      match rs !! i, regs !! i with
      | Some r, Some r0 =>
          open_loop n' (S i) rs (<[i := open_region r0 r]> regs)
      | _, _ => None
      end
  end.

(** Returns the C result and the device after the call; [None] when
    the code leaves an array. *)
Definition vfio_cdx_open_device (kcalloc_ok : bool)
           (cdx_dev : cdx_device) (vdev : vfio_cdx_device)
  : option (Z * vfio_cdx_device) :=
  let count := res_count cdx_dev in
  match kcalloc kcalloc_ok count with
  | None => Some (- ENOMEM, {| regions := None |})
  | Some regs =>
      match open_loop (Z.to_nat count) 0 (res cdx_dev) regs with
      | Some regs' => Some (0, {| regions := Some regs' |})
      | None => None
      end
  end.

Definition vfio_cdx_regions_cleanup (vdev : vfio_cdx_device)
  : logged extcall unit :=
  emit kfree_regions.

Definition vfio_cdx_close_device (cdx_dev : cdx_device)
           (vdev : vfio_cdx_device) : logged extcall unit :=
  run vfio_cdx_regions_cleanup vdev in
  call ret <- extern cdx_dev_reset_call (cdx_dev_reset cdx_dev) in
  run when (negb (ret =? 0))
        (emit (dev_warn "VFIO_CDX: reset device has failed (%d)" ret)) in
  emit vfio_cdx_irqs_cleanup.

Definition vfio_cdx_ioctl_get_region_info (cdx_dev : cdx_device)
           (vdev : vfio_cdx_device) (arg : user_ptr vfio_region_info)
  : option (Z * option vfio_region_info) :=
  match readable arg with
  | None => Some (- EFAULT, None)
  | Some info =>
      if ri_argsz info <? region_info_minsz then Some (- EINVAL, None)
      else if ri_index info >=? res_count cdx_dev
      then Some (- EINVAL, None)
      else
        match regions vdev ≫= (.!! Z.to_nat (ri_index info)) with
        | None => None
        | Some region =>
            let info' :=
              {| ri_argsz := ri_argsz info;
                 ri_flags := flags region;
                 ri_index := ri_index info;
                 ri_size := size region;
                 ri_offset := vfio_cdx_index_to_offset (ri_index info) |} in
            if writable arg then Some (0, Some info')
            else Some (- EFAULT, None)
        end
  end.

Definition vfio_cdx_ioctl_get_irq_info (cdx_dev : cdx_device)
           (arg : user_ptr vfio_irq_info) : Z * option vfio_irq_info :=
  match readable arg with
  | None => (- EFAULT, None)
  | Some info =>
      if ii_argsz info <? irq_info_minsz then (- EINVAL, None)
      else if ii_index info >=? 1 then (- EINVAL, None)
      else
        let info' :=
          {| ii_argsz := ii_argsz info;
             ii_flags := VFIO_IRQ_INFO_EVENTFD;
             ii_index := ii_index info;
             ii_count := num_msi cdx_dev |} in
        if writable arg then (0, Some info') else (- EFAULT, None)
  end.

Definition vfio_cdx_mmap_mmio (region : vfio_cdx_region)
           (vma : vm_area_struct) : logged extcall (Z * vm_area_struct) :=
  let sz := u64 (vm_end vma - vm_start vma) in
  let pgoff :=
    Z.land (vm_pgoff vma)
           (u32 (u32 (Z.shiftl 1 (VFIO_CDX_OFFSET_SHIFT - PAGE_SHIFT)) - 1)) in
  let base := u64 (Z.shiftl pgoff PAGE_SHIFT) in
  if (size region <? PAGE_SIZE) || (u64 (base + sz) >? size region)
  then pure (- EINVAL, vma)
  else
    let vma1 :=
      {| vm_start := vm_start vma; vm_end := vm_end vma;
         vm_pgoff := u64 (Z.shiftr (addr region) PAGE_SHIFT + pgoff);
         vm_flags := vm_flags vma; vm_page_prot := vm_page_prot vma |} in
    let vma2 :=
      {| vm_start := vm_start vma1; vm_end := vm_end vma1;
         vm_pgoff := vm_pgoff vma1; vm_flags := vm_flags vma1;
         vm_page_prot := pgprot_device (vm_page_prot vma1) |} in
    call ret <- extern
        (io_remap_pfn_range_call vma2 (vm_start vma2) (vm_pgoff vma2) sz
                                 (vm_page_prot vma2))
        (io_remap_pfn_range vma2 (vm_start vma2) (vm_pgoff vma2) sz
                            (vm_page_prot vma2)) in
    pure (ret, vma2).

(** The page offset the mmap system call hands to the driver for a
    byte offset: [vm_pgoff = offset >> PAGE_SHIFT]. *)
Definition offset_to_pgoff (offset : Z) : Z := Z.shiftr offset PAGE_SHIFT.

(** [index = vma->vm_pgoff >> (VFIO_CDX_OFFSET_SHIFT - PAGE_SHIFT)],
    stored in an [unsigned int]. *)
Definition mmap_index (pgoff : Z) : Z :=
  u32 (Z.shiftr pgoff (VFIO_CDX_OFFSET_SHIFT - PAGE_SHIFT)).

(** The three flag tests of [vfio_cdx_mmap], in source order. *)
Definition mmap_refused (region : vfio_cdx_region) : bool :=
  Z.land (flags region) VFIO_REGION_INFO_FLAG_MMAP =? 0.

Definition read_refused (region : vfio_cdx_region)
           (vma : vm_area_struct) : bool :=
  (Z.land (flags region) VFIO_REGION_INFO_FLAG_READ =? 0) &&
  negb (Z.land (vm_flags vma) VM_READ =? 0).

Definition write_refused (region : vfio_cdx_region)
           (vma : vm_area_struct) : bool :=
  (Z.land (flags region) VFIO_REGION_INFO_FLAG_WRITE =? 0) &&
  negb (Z.land (vm_flags vma) VM_WRITE =? 0).

(** Returns the C result and the vma after the call, with the calls
    made; [None] when [regions[index]] leaves the array. *)
Definition vfio_cdx_mmap (cdx_dev : cdx_device) (vdev : vfio_cdx_device)
           (vma : vm_area_struct)
  : option (logged extcall (Z * vm_area_struct)) :=
  let index := mmap_index (vm_pgoff vma) in
  if index >=? res_count cdx_dev then Some (pure (- EINVAL, vma))
  else
    match regions vdev ≫= (.!! Z.to_nat index) with
    | None => None
    | Some region =>
        if mmap_refused region then Some (pure (- EINVAL, vma))
        else if read_refused region vma then Some (pure (- EINVAL, vma))
        else if write_refused region vma then Some (pure (- EINVAL, vma))
        else Some (vfio_cdx_mmap_mmio region vma)
    end.

End Code.

(** What the code relies on from the platform: the shift amounts are
    those of a C shift on the types involved, the three region flags
    are distinct bits of a [u32], a user mapping ends below
    [TASK_SIZE], far from the top of the 64-bit range, and every index
    of the resource array fits above the offset shift. *)
Definition platform_ok `{Platform} : Prop :=
  0 <= PAGE_SHIFT <= VFIO_CDX_OFFSET_SHIFT /\
  VFIO_CDX_OFFSET_SHIFT - PAGE_SHIFT < 32 /\
  0 < VFIO_REGION_INFO_FLAG_READ < 2 ^ 32 /\
  0 < VFIO_REGION_INFO_FLAG_WRITE < 2 ^ 32 /\
  0 < VFIO_REGION_INFO_FLAG_MMAP < 2 ^ 32 /\
  Z.land VFIO_REGION_INFO_FLAG_READ VFIO_REGION_INFO_FLAG_WRITE = 0 /\
  Z.land VFIO_REGION_INFO_FLAG_READ VFIO_REGION_INFO_FLAG_MMAP = 0 /\
  Z.land VFIO_REGION_INFO_FLAG_WRITE VFIO_REGION_INFO_FLAG_MMAP = 0 /\
  0 <= TASK_SIZE /\
  TASK_SIZE + 2 ^ VFIO_CDX_OFFSET_SHIFT <= 2 ^ 64 /\
  0 <= MAX_CDX_DEV_RESOURCES < 2 ^ 32 /\
  MAX_CDX_DEV_RESOURCES * 2 ^ VFIO_CDX_OFFSET_SHIFT <= 2 ^ 64.

(** [struct resource res[MAX_CDX_DEV_RESOURCES]] with [res_count] of
    them in use. *)
Definition cdx_device_ok `{Platform} (d : cdx_device) : Prop :=
  length (res d) = Z.to_nat MAX_CDX_DEV_RESOURCES /\
  0 <= res_count d <= MAX_CDX_DEV_RESOURCES.

(** An open session: the region array holds [res_count] entries. *)
Definition session_open (d : cdx_device) (vdev : vfio_cdx_device) : Prop :=
  exists regs, regions vdev = Some regs /\
               length regs = Z.to_nat (res_count d).

(** A vma as memory management passes it: a range of user addresses
    and a page offset of 64 bits. *)
Definition vma_ok `{Platform} (vma : vm_area_struct) : Prop :=
  0 <= vm_start vma <= vm_end vma /\ vm_end vma <= TASK_SIZE /\
  0 <= vm_pgoff vma < 2 ^ 64.

(** The vocabulary of the specification, on the code's data. *)
Definition has_flag (r : vfio_cdx_region) (bit : Z) : bool :=
  negb (Z.land (flags r) bit =? 0).

Definition page_aligned `{Platform} (x : Z) : Prop := x mod PAGE_SIZE = 0.

Definition request_length (vma : vm_area_struct) : Z :=
  vm_end vma - vm_start vma.

Definition page_offset_bytes `{Platform} (vma : vm_area_struct) : Z :=
  (vm_pgoff vma mod 2 ^ (VFIO_CDX_OFFSET_SHIFT - PAGE_SHIFT)) * PAGE_SIZE.

(** arm64 with 4K pages, the values of the kernel headers. *)
Definition arm64_4k : Platform := {|
  PAGE_SHIFT := 12;
  VFIO_CDX_OFFSET_SHIFT := 40;
  VFIO_REGION_INFO_FLAG_READ := 1;
  VFIO_REGION_INFO_FLAG_WRITE := 2;
  VFIO_REGION_INFO_FLAG_MMAP := 4;
  VFIO_IRQ_INFO_EVENTFD := 1;
  IORESOURCE_READONLY := 16384;
  VM_READ := 1;
  VM_WRITE := 2;
  region_info_minsz := 32;
  irq_info_minsz := 16;
  TASK_SIZE := 2 ^ 48;
  MAX_CDX_DEV_RESOURCES := 4;
  resource_size := fun r => end_ r - start r + 1;
  pgprot_device := fun p => p;
  cdx_dev_reset := fun _ => 0;
  io_remap_pfn_range := fun _ _ _ _ _ => 0
|}.

End VfioCdx.

(** ** Sample devices, descriptors and environments *)

Module Samples.
Import CdxMsi.

Definition mk_dev (c : cdx_controller) (rid nmsi : Z) : cdx_device :=
  {| cdx := c; res := []; res_count := 0; bus_num := 0; dev_num := 0;
     req_id := rid; num_msi := nmsi |}.

Definition mk_desc (d : cdx_device) (i : Z) : msi_desc :=
  {| dev := d; msi_index := i;
     msg := {| address_lo := 0; address_hi := 0; data := 0 |} |}.

Definition quiet : cdx_controller := {| dev_configure := fun _ _ _ => 0 |}.
Definition failing : cdx_controller :=
  {| dev_configure := fun _ _ _ => - EIO |}.

Definition sample_msg : msi_msg :=
  {| address_lo := 4096; address_hi := 2; data := 85 |}.

(** A device that already holds a descriptor, and one that holds none. *)
Definition busy_core : msi_core :=
  {| msi_setup_device_data := 0;
     msi_descs := [mk_desc (mk_dev quiet 7 4) 0];
     msi_domain_alloc_irqs := fun _ => 0 |}.

Definition fresh_core : msi_core :=
  {| msi_setup_device_data := 0;
     msi_descs := [];
     msi_domain_alloc_irqs := fun _ => 0 |}.

(** The device of the specification's scenario, with a third region
    that is page-aligned and read-only: region0 at 0x1000 of size
    0x1000, writable; region1 at 0x1234 of size 0x10, read-only;
    region2 at 0x2000 of size 0x1000, read-only. *)
Definition sample_dev : cdx_device :=
  {| cdx := quiet;
     res := [ {| start := 4096; end_ := 8191; res_flags := 512 |};
              {| start := 4660; end_ := 4675; res_flags := 512 + 16384 |};
              {| start := 8192; end_ := 12287; res_flags := 512 + 16384 |};
              {| start := 0; end_ := 0; res_flags := 0 |} ];
     res_count := 3; bus_num := 0; dev_num := 0; req_id := 7;
     num_msi := 4 |}.

Definition closed_session : VfioCdx.vfio_cdx_device :=
  {| VfioCdx.regions := None |}.

(** The session [vfio_cdx_open_device] builds for [sample_dev]. *)
Definition sample_session : VfioCdx.vfio_cdx_device :=
  {| VfioCdx.regions := Some
       [ {| VfioCdx.flags := 7; VfioCdx.type := 512;
            VfioCdx.addr := 4096; VfioCdx.size := 4096 |};
         {| VfioCdx.flags := 1; VfioCdx.type := 16896;
            VfioCdx.addr := 4660; VfioCdx.size := 16 |};
         {| VfioCdx.flags := 5; VfioCdx.type := 16896;
            VfioCdx.addr := 8192; VfioCdx.size := 4096 |} ] |}.

(** A mapping request for [len] bytes at byte offset [offset], with
    access flags [access]. *)
Definition request (offset len access : Z) : VfioCdx.vm_area_struct :=
  {| VfioCdx.vm_start := 65536; VfioCdx.vm_end := 65536 + len;
     VfioCdx.vm_pgoff := Z.shiftr offset 12;
     VfioCdx.vm_flags := access; VfioCdx.vm_page_prot := 0 |}.

(** A GET_IRQ_INFO request for group [i], of the minimum size, in
    memory the caller can read and write. *)
Definition irq_info_request (i : Z) : VfioCdx.vfio_irq_info :=
  {| VfioCdx.ii_argsz := 16; VfioCdx.ii_flags := 0;
     VfioCdx.ii_index := i; VfioCdx.ii_count := 0 |}.

Definition irq_query (i : Z) : VfioCdx.user_ptr VfioCdx.vfio_irq_info :=
  {| VfioCdx.readable := Some (irq_info_request i);
     VfioCdx.writable := true |}.

End Samples.

Import Samples.

(** ** drivers/cdx/cdx_msi.c: the MSI domain *)

Module CdxMsiDomain.

(** Calls that leave the file. *)
Inductive extcall :=
| of_map_id_call (id : Z)
| dev_err (text : string)
| dev_err_code (text : string) (ret : Z)
| msi_prepare_call (domain : Z) (nvec : Z) (dev_id : Z)
| of_parse_phandle_call
| irq_find_matching_fwnode_call (node : Z)
| msi_get_domain_info_call (domain : Z)
| msi_create_irq_domain_call (parent : Z)
| dev_dbg (text : string).





(** What the firmware tables and the interrupt core answer during
    [cdx_msi_domain_init]; nodes and domains are handles, [None] is a
    null pointer. *)
Record fw_env := {
  of_parse_phandle : option Z;
  irq_find_matching_fwnode : Z -> option Z;
  msi_get_domain_info : Z -> bool;
  msi_create_irq_domain : Z -> option Z
}.

Definition cdx_msi_domain_init (e : fw_env) : logged extcall (option Z) :=
  call parent_node <- extern of_parse_phandle_call (of_parse_phandle e) in
  match parent_node with
  | None =>
      run emit (dev_err "msi-map not present on cdx controller") in
      pure None
  | Some node =>
      call parent <- extern (irq_find_matching_fwnode_call node)
                            (irq_find_matching_fwnode e node) in
      call usable <-
        match parent with
        | None => pure false
        | Some p => extern (msi_get_domain_info_call p)
                           (msi_get_domain_info e p)
        end in
      match parent, usable with
      | Some p, true =>
          call cdx_msi_domain <- extern (msi_create_irq_domain_call p)
                                        (msi_create_irq_domain e p) in
          match cdx_msi_domain with
          | None =>
              run emit (dev_err "unable to create CDX-MSI domain") in
              pure None
          | Some dom =>
              run emit (dev_dbg "CDX-MSI domain created") in
              pure (Some dom)
          end
      | _, _ =>
          run emit (dev_err "unable to locate ITS domain") in
          pure None
      end
  end.

Definition is_create_call (c : extcall) : bool :=
  match c with msi_create_irq_domain_call _ => true | _ => false end.

Definition is_dev_err (c : extcall) : bool :=
  match c with dev_err _ => true | _ => false end.

End CdxMsiDomain.

(** ** drivers/vfio/cdx/main.c: commands, probe and remove *)

Module VfioCdxIoctl.
Import VfioCdx.

(** Command numbers and device flags of the VFIO user interface, and the
    minimum argument sizes of the two remaining structures. *)
Class Uapi := {
  VFIO_DEVICE_GET_INFO : Z;
  VFIO_DEVICE_GET_REGION_INFO : Z;
  VFIO_DEVICE_GET_IRQ_INFO : Z;
  VFIO_DEVICE_SET_IRQS : Z;
  VFIO_DEVICE_RESET : Z;
  VFIO_DEVICE_FLAGS_CDX : Z;
  VFIO_DEVICE_FLAGS_RESET : Z;
  device_info_minsz : Z;
  irq_set_minsz : Z
}.

Record vfio_device_info := {
  di_argsz : Z;
  di_flags : Z;
  di_num_regions : Z;
  di_num_irqs : Z
}.

Record vfio_irq_set := {
  is_argsz : Z;
  is_flags : Z;
  is_index : Z;
  is_start : Z;
  is_count : Z
}.

(** Calls that leave the file. *)
Inductive extcall :=
| vfio_set_irqs_validate_and_prepare_call
    (hdr : vfio_irq_set) (num_irqs max_irq_type : Z)
| memdup_user_call (size : Z)
| vfio_cdx_set_irqs_ioctl_call
    (flags index start count : Z) (data : option (list Z))
| kfree_call (data : option (list Z))
| cdx_dev_reset_call
| vfio_alloc_device_call
| vfio_register_group_dev_call (vdev : Z)
| dev_err (text : string)
| dev_set_drvdata_call (vdev : Z)
| vfio_put_device_call (vdev : Z)
| vfio_unregister_group_dev_call (vdev : Z).

(** The interrupt side of the VFIO core and of the driver:
    [vfio_set_irqs_validate_and_prepare] gives its result and the data
    size it stores, [memdup_user] an errno or the copied bytes,
    [vfio_cdx_set_irqs_ioctl] its result. *)
Record irq_core := {
  vfio_set_irqs_validate_and_prepare : vfio_irq_set -> Z -> Z -> Z * Z;
  memdup_user : Z -> Z + list Z;
  vfio_cdx_set_irqs_ioctl : Z -> Z -> Z -> Z -> option (list Z) -> Z
}.

(** Device registration: [vfio_alloc_device] gives an errno or the new
    device, [vfio_register_group_dev] its result. *)
Record vfio_core := {
  vfio_alloc_device : Z + Z;
  vfio_register_group_dev : Z -> Z
}.




Section Code.
Context `{Platform} `{Uapi}.

Definition vfio_cdx_ioctl_get_info (cdx_dev : cdx_device)
           (arg : user_ptr vfio_device_info) : Z * option vfio_device_info :=
  match readable arg with
  | None => (- EFAULT, None)
  | Some info =>
      if di_argsz info <? device_info_minsz then (- EINVAL, None)
      else
        let flags0 := u32 VFIO_DEVICE_FLAGS_CDX in
        let flags1 := u32 (Z.lor flags0 VFIO_DEVICE_FLAGS_RESET) in
        let info' :=
          {| di_argsz := di_argsz info;
             di_flags := flags1;
             di_num_regions := u32 (res_count cdx_dev);
             di_num_irqs := 1 |} in
        if writable arg then (0, Some info') else (- EFAULT, None)
  end.

(** [num_msi] is a [u32]; [vfio_set_irqs_validate_and_prepare] takes it
    as [int num_irqs]. *)
Definition vfio_cdx_ioctl_set_irqs (e : irq_core) (cdx_dev : cdx_device)
           (arg : option vfio_irq_set) : logged extcall Z :=
  match arg with
  | None => pure (- EFAULT)
  | Some hdr =>
      call r <- extern
          (vfio_set_irqs_validate_and_prepare_call hdr
             (s32 (num_msi cdx_dev)) 1)
          (vfio_set_irqs_validate_and_prepare e hdr
             (s32 (num_msi cdx_dev)) 1) in
      let ret := fst r in
      let data_size := snd r in
      if negb (ret =? 0) then pure ret
      else
        call dup <-
          (if negb (data_size =? 0)
           then extern (memdup_user_call data_size)
                       (Some (memdup_user e data_size))
           else pure None) in
        match dup with
        | Some (inl err) => pure err
        | _ =>
            let data :=
              match dup with Some (inr bytes) => Some bytes | _ => None end in
            call ret <- extern
                (vfio_cdx_set_irqs_ioctl_call
                   (is_flags hdr) (is_index hdr) (is_start hdr)
                   (is_count hdr) data)
                (vfio_cdx_set_irqs_ioctl e
                   (is_flags hdr) (is_index hdr) (is_start hdr)
                   (is_count hdr) data) in
            run emit (kfree_call data) in
            pure ret
        end
  end.


End Code.

Definition vfio_cdx_probe (c : vfio_core) : logged extcall Z :=
  call vdev <- extern vfio_alloc_device_call (vfio_alloc_device c) in
  match vdev with
  | inl err => pure err
  | inr v =>
      call ret <- extern (vfio_register_group_dev_call v)
                         (vfio_register_group_dev c v) in
      if negb (ret =? 0) then
        run emit (dev_err "VFIO_CDX: Failed to add to vfio group") in
        run emit (vfio_put_device_call v) in
        pure ret
      else
        run emit (dev_set_drvdata_call v) in
        pure 0
  end.

(** [vdev] is the driver data of the device. *)
Definition vfio_cdx_remove (vdev : Z) : logged extcall Z :=
  run emit (vfio_unregister_group_dev_call vdev) in
  run emit (vfio_put_device_call vdev) in
  pure 0.


(** The values of [include/uapi/linux/vfio.h]. *)
Definition linux_uapi : Uapi := {|
  VFIO_DEVICE_GET_INFO := 15211;
  VFIO_DEVICE_GET_REGION_INFO := 15212;
  VFIO_DEVICE_GET_IRQ_INFO := 15213;
  VFIO_DEVICE_SET_IRQS := 15214;
  VFIO_DEVICE_RESET := 15215;
  VFIO_DEVICE_FLAGS_CDX := 256;
  VFIO_DEVICE_FLAGS_RESET := 1;
  device_info_minsz := 16;
  irq_set_minsz := 20
|}.

Definition is_put (c : extcall) : bool :=
  match c with vfio_put_device_call _ => true | _ => false end.

Definition is_kfree (c : extcall) : bool :=
  match c with kfree_call _ => true | _ => false end.

Definition is_handler_call (c : extcall) : bool :=
  match c with vfio_cdx_set_irqs_ioctl_call _ _ _ _ _ => true | _ => false end.

End VfioCdxIoctl.

(** ** Vocabulary for the catalog and the mapping path *)

Module VfioCdxSpec.
Import VfioCdx.

Section Vocabulary.
Context `{Platform}.

(** A memory resource: a range of 64-bit physical addresses. *)
Definition resource_ok (rs : resource) : Prop :=
  0 <= start rs /\ 0 <= resource_size rs /\
  start rs + resource_size rs <= 2 ^ 64.

(** The descriptor of a resource. *)
Definition catalog_entry (rs : resource) : vfio_cdx_region :=
  {| flags := region_flags rs; type := u32 (res_flags rs);
     addr := start rs; size := u64 (resource_size rs) |}.

(** The tests a request has to pass on its region, in unbounded
    arithmetic. *)
Definition mmap_accepts (region : vfio_cdx_region) (vma : vm_area_struct)
  : bool :=
  has_flag region VFIO_REGION_INFO_FLAG_MMAP &&
  negb (read_refused region vma) && negb (write_refused region vma) &&
  (PAGE_SIZE <=? size region) &&
  (page_offset_bytes vma + request_length vma <=? size region).

(** The page frame a request is mapped at. *)
Definition remap_pfn (region : vfio_cdx_region) (vma : vm_area_struct) : Z :=
  u64 (Z.shiftr (addr region) PAGE_SHIFT +
       vm_pgoff vma mod 2 ^ (VFIO_CDX_OFFSET_SHIFT - PAGE_SHIFT)).

Definition mapped_vma (region : vfio_cdx_region) (vma : vm_area_struct)
  : vm_area_struct :=
  {| vm_start := vm_start vma; vm_end := vm_end vma;
     vm_pgoff := remap_pfn region vma; vm_flags := vm_flags vma;
     vm_page_prot := pgprot_device (vm_page_prot vma) |}.

(** The one call an accepted request makes. *)
Definition remap_call (region : vfio_cdx_region) (vma : vm_area_struct)
  : extcall :=
  io_remap_pfn_range_call (mapped_vma region vma) (vm_start vma)
    (remap_pfn region vma) (request_length vma)
    (pgprot_device (vm_page_prot vma)).

Definition is_remap_call (c : extcall) : bool :=
  match c with io_remap_pfn_range_call _ _ _ _ _ => true | _ => false end.

End Vocabulary.

End VfioCdxSpec.

(** ** More sample environments *)

Module MoreSamples.
Import VfioCdx VfioCdxIoctl.



(** Firmware with an msi-map whose parent is domain 2. *)
Definition sample_fw : CdxMsiDomain.fw_env :=
  {| CdxMsiDomain.of_parse_phandle := Some 1;
     CdxMsiDomain.irq_find_matching_fwnode := fun _ => Some 2;
     CdxMsiDomain.msi_get_domain_info := fun _ => true;
     CdxMsiDomain.msi_create_irq_domain := fun _ => Some 3 |}.

(** An interrupt core that accepts every header and asks for 8 bytes of
    data. *)
Definition sample_irq_core : irq_core :=
  {| vfio_set_irqs_validate_and_prepare := fun _ _ _ => (0, 8);
     memdup_user := fun n => inr (replicate (Z.to_nat n) 0);
     vfio_cdx_set_irqs_ioctl := fun _ _ _ _ _ => 0 |}.

Definition sample_irq_set : vfio_irq_set :=
  {| is_argsz := 28; is_flags := 36; is_index := 0; is_start := 0;
     is_count := 2 |}.

(** A registration that fails after the device was allocated. *)
Definition refusing_core : vfio_core :=
  {| vfio_alloc_device := inr 9;
     vfio_register_group_dev := fun _ => - ENOMEM |}.

Definition accepting_core : vfio_core :=
  {| vfio_alloc_device := inr 9; vfio_register_group_dev := fun _ => 0 |}.

(** A GET_REGION_INFO request for region [i]. *)
Definition region_info_request (i : Z) : vfio_region_info :=
  {| ri_argsz := 32; ri_flags := 0; ri_index := i;
     ri_size := 0; ri_offset := 0 |}.

Definition region_query (i : Z) : user_ptr vfio_region_info :=
  {| readable := Some (region_info_request i); writable := true |}.

Definition info_query : user_ptr vfio_device_info :=
  {| readable := Some {| di_argsz := 16; di_flags := 0;
                         di_num_regions := 0; di_num_irqs := 0 |};
     writable := true |}.


(** An MSI core without descriptors that refuses a negative vector
    count with -ENOSPC. *)
Definition strict_core : CdxMsi.msi_core :=
  {| CdxMsi.msi_setup_device_data := 0;
     CdxMsi.msi_descs := [];
     CdxMsi.msi_domain_alloc_irqs := fun n => if n <? 0 then - 28 else 0 |}.

(** The vma of [request 0 4096 3] after it was mapped on region0 of the
    sample device. *)
Definition mapped_request : vm_area_struct :=
  {| vm_start := 65536; vm_end := 69632; vm_pgoff := 1; vm_flags := 3;
     vm_page_prot := 0 |}.

End MoreSamples.

(** * Properties *)

(** ** Integer facts used below *)

Lemma wrap_range w x : 0 <= w -> 0 <= wrap w x < 2 ^ w.
Proof.
  intros Hw. unfold wrap. apply Z.mod_pos_bound. apply Z.pow_pos_nonneg; lia.
Qed.

Lemma wrap_small w x : 0 <= x < 2 ^ w -> wrap w x = x.
Proof. intros Hx. unfold wrap. apply Z.mod_small. exact Hx. Qed.

(** A count that fits an [int] is passed on as it is. *)
Lemma s32_small x : 0 <= x < 2 ^ 31 -> s32 x = x.
Proof. intros Hx. unfold s32. rewrite Z.mod_small; lia. Qed.

(** An [unsigned int] from [2^31] up arrives as a negative [int]. *)
Lemma s32_large x : 2 ^ 31 <= x < 2 ^ 32 -> s32 x = x - 2 ^ 32.
Proof.
  intros Hx. unfold s32.
  replace (x + 2 ^ 31) with (x - 2 ^ 31 + 1 * 2 ^ 32) by lia.
  rewrite Z.mod_add by lia. rewrite Z.mod_small; lia.
Qed.

(** A value below [2^n] shares no bit with a multiple of [2^n]. *)
Lemma land_mul_pow2_low a b n :
  0 <= n -> 0 <= b < 2 ^ n -> Z.land (a * 2 ^ n) b = 0.
Proof.
  intros Hn Hb. apply Z.bits_inj'. intros k Hk.
  rewrite Z.land_spec, Z.bits_0.
  destruct (Z.lt_ge_cases k n) as [Hlt | Hge].
  - rewrite Z.mul_pow2_bits_low by lia. reflexivity.
  - destruct (Z.eq_dec b 0) as [-> | Hb0].
    + rewrite Z.bits_0. apply andb_false_r.
    + rewrite (Z.bits_above_log2 b k); [apply andb_false_r | lia |].
      apply Z.lt_le_trans with n; [| lia].
      apply Z.log2_lt_pow2; lia.
Qed.

(** A field of [n] low bits under a shifted value: or is addition. *)
Lemma lor_shiftl_low a b n :
  0 <= n -> 0 <= b < 2 ^ n -> Z.lor (Z.shiftl a n) b = a * 2 ^ n + b.
Proof.
  intros Hn Hb. rewrite Z.shiftl_mul_pow2 by lia.
  pose proof (land_mul_pow2_low a b n Hn Hb) as Hdisj.
  rewrite <- Z.lxor_lor by exact Hdisj.
  symmetry. apply Z.add_nocarry_lxor. exact Hdisj.
Qed.

(** ** cdx_msi.c: hardware interrupt numbers *)

Section Hwirq.
Import CdxMsi.

(** With a requestor ID of 32 bits and a vector index below 1024 the
    identifier is [req_id * 1024 + msi_index]. *)
Lemma cdx_domain_calc_hwirq_low d m :
  0 <= req_id d < 2 ^ 32 -> 0 <= msi_index m < 2 ^ REQ_ID_SHIFT ->
  cdx_domain_calc_hwirq d m = req_id d * 1024 + msi_index m.
Proof.
  intros Hr Hi. unfold cdx_domain_calc_hwirq, u64, REQ_ID_SHIFT in *.
  rewrite (wrap_small 64 (req_id d)) by lia.
  rewrite wrap_small.
  - rewrite lor_shiftl_low by lia. reflexivity.
  - rewrite Z.shiftl_mul_pow2 by lia. lia.
Qed.

(** Within the 10-bit index field the identifier determines both the
    requestor ID and the vector index. *)
Lemma cdx_domain_calc_hwirq_inj_low d1 m1 d2 m2 :
  0 <= req_id d1 < 2 ^ 32 -> 0 <= req_id d2 < 2 ^ 32 ->
  0 <= msi_index m1 < 2 ^ REQ_ID_SHIFT ->
  0 <= msi_index m2 < 2 ^ REQ_ID_SHIFT ->
  cdx_domain_calc_hwirq d1 m1 = cdx_domain_calc_hwirq d2 m2 ->
  req_id d1 = req_id d2 /\ msi_index m1 = msi_index m2.
Proof.
  intros H1 H2 H3 H4.
  rewrite !cdx_domain_calc_hwirq_low by assumption.
  unfold REQ_ID_SHIFT in *. lia.
Qed.

(** C1: the composite identity is meant to differ for any two vectors
    of two different devices of one domain.  The code does not bound
    the vector index to the 10 bits below the requestor ID: vector
    1024 of the device with requestor ID 0 and vector 0 of the device
    with requestor ID 1 both get identity 1024. *)
Theorem cdx_domain_calc_hwirq_collides :
  let A := mk_dev quiet 0 1025 in
  let B := mk_dev quiet 1 1 in
  let v_a := mk_desc A 1024 in
  let v_b := mk_desc B 0 in
  req_id A <> req_id B /\
  0 <= msi_index v_a < num_msi A /\ 0 <= msi_index v_b < num_msi B /\
  0 <= msi_index v_a < 2 ^ 16 /\
  cdx_domain_calc_hwirq A v_a = 1024 /\
  cdx_domain_calc_hwirq B v_b = 1024.
Proof. cbv zeta. simpl. repeat split; try lia; try discriminate. Qed.

End Hwirq.

(** ** cdx_msi.c: writing a message, allocating vectors *)

Section Msi.
Import CdxMsi.

Lemma pack_address hi lo :
  0 <= hi < 2 ^ 32 -> 0 <= lo < 2 ^ 32 ->
  Z.lor (u64 (Z.shiftl (u64 hi) 32)) lo = hi * 2 ^ 32 + lo.
Proof.
  intros Hhi Hlo. unfold u64.
  rewrite (wrap_small 64 hi) by lia.
  rewrite wrap_small by (rewrite Z.shiftl_mul_pow2 by lia; lia).
  apply lor_shiftl_low; lia.
Qed.

(** C6, as the code has it: the message is stored in the descriptor,
    the 64-bit address is [address_hi * 2^32 + address_lo], exactly one
    configure call goes to the controller, tagged with the vector
    index; when the controller fails, one error line is logged and
    nothing else happens: the function returns no value, so the
    failure does not reach the caller. *)
Theorem cdx_msi_write_msg_spec (d : msi_desc) (m : msi_msg) :
  0 <= address_lo m < 2 ^ 32 -> 0 <= address_hi m < 2 ^ 32 ->
  let cdx_dev := dev d in
  let status :=
    dev_configure (cdx cdx_dev) (bus_num cdx_dev) (dev_num cdx_dev)
                  (msi_conf_of d m) in
  let request :=
    dev_configure_call (bus_num cdx_dev) (dev_num cdx_dev)
                       (msi_conf_of d m) in
  fst (cdx_msi_write_msg d m)
  = (tt, {| dev := dev d; msi_index := msi_index d; msg := m |}) /\
  snd (cdx_msi_write_msg d m)
  = if status =? 0 then [request]
    else [request; dev_err "Write MSI failed to CDX controller"].
Proof.
  intros Hlo Hhi. cbv zeta. unfold cdx_msi_write_msg, msi_conf_of.
  cbn [dev msi_index msg data address_hi address_lo].
  rewrite pack_address by assumption.
  unfold extern, bind, when, emit, pure. cbn.
  destruct (_ =? 0); cbn; split; reflexivity.
Qed.

(** C8: a device that already holds a descriptor never reaches
    [msi_domain_alloc_irqs], and gets -EINVAL once its MSI data is set
    up; a device without descriptors gets one [msi_domain_alloc_irqs]
    call for all vectors together, whose result is returned.  The count
    of that call is [irq_count] converted to [int]: [irq_count] itself
    when it is below [2^31]. *)
Theorem cdx_msi_domain_alloc_irqs_single_epoch (m : msi_core) (irq_count : Z) :
  (msi_descs m <> [] ->
   (msi_setup_device_data m = 0 ->
    InvalidArgument (fst (cdx_msi_domain_alloc_irqs m irq_count))) /\
   forall n,
     msi_domain_alloc_irqs_call n
     ∉ snd (cdx_msi_domain_alloc_irqs m irq_count))
  /\
  (msi_descs m = [] -> msi_setup_device_data m = 0 ->
   fst (cdx_msi_domain_alloc_irqs m irq_count)
   = msi_domain_alloc_irqs m (s32 irq_count) /\
   filter is_alloc_call (snd (cdx_msi_domain_alloc_irqs m irq_count))
   = [msi_domain_alloc_irqs_call (s32 irq_count)])
  /\
  (msi_descs m = [] -> msi_setup_device_data m = 0 ->
   0 <= irq_count < 2 ^ 31 ->
   fst (cdx_msi_domain_alloc_irqs m irq_count)
   = msi_domain_alloc_irqs m irq_count /\
   filter is_alloc_call (snd (cdx_msi_domain_alloc_irqs m irq_count))
   = [msi_domain_alloc_irqs_call irq_count]).
Proof.
  assert (Hfresh :
            msi_descs m = [] -> msi_setup_device_data m = 0 ->
            fst (cdx_msi_domain_alloc_irqs m irq_count)
            = msi_domain_alloc_irqs m (s32 irq_count) /\
            filter is_alloc_call (snd (cdx_msi_domain_alloc_irqs m irq_count))
            = [msi_domain_alloc_irqs_call (s32 irq_count)]).
  { unfold cdx_msi_domain_alloc_irqs, msi_first_desc.
    unfold extern, bind, when, emit, pure.
    intros -> ->. cbn.
    destruct (msi_domain_alloc_irqs m (s32 irq_count) =? 0); cbn;
      split; reflexivity. }
  split; [| split; [exact Hfresh |]].
  - unfold cdx_msi_domain_alloc_irqs, msi_first_desc.
    unfold extern, bind, when, emit, pure.
    intros Hne. destruct (msi_descs m) as [| d0 ds]; [congruence |].
    split.
    + intros ->. reflexivity.
    + intros n Hin.
      destruct (msi_setup_device_data m =? 0); cbn in Hin;
        repeat (apply elem_of_cons in Hin as [Hin | Hin]; [discriminate |]);
        by apply elem_of_nil in Hin.
  - intros Hd Hs Hrange.
    rewrite <- (s32_small irq_count Hrange) at 2 4.
    apply Hfresh; assumption.
Qed.

Lemma cdx_msi_domain_alloc_irqs_single_epoch_witness :
  InvalidArgument (fst (cdx_msi_domain_alloc_irqs busy_core 4)) /\
  filter is_alloc_call (snd (cdx_msi_domain_alloc_irqs fresh_core 4))
  = [msi_domain_alloc_irqs_call 4].
Proof.
  split.
  - apply (cdx_msi_domain_alloc_irqs_single_epoch busy_core 4);
      [discriminate | reflexivity].
  - apply (proj2 (proj2 (cdx_msi_domain_alloc_irqs_single_epoch fresh_core 4)));
      [reflexivity | reflexivity | lia].
Defined.

Lemma cdx_msi_write_msg_spec_witness :
  snd (cdx_msi_write_msg (mk_desc (mk_dev failing 7 4) 3) sample_msg)
  = [dev_configure_call 0 0 (CDX_DEV_MSI_CONF 3 85 8589938688);
     dev_err "Write MSI failed to CDX controller"].
Proof.
  apply (cdx_msi_write_msg_spec (mk_desc (mk_dev failing 7 4) 3) sample_msg);
    simpl; lia.
Defined.

(** C6 fails where it says the controller's error reaches the caller:
    with a controller that answers -EIO the function hands back the
    same (empty) value and the same stored message as with one that
    answers 0; the failure shows in the log line only, after a single
    configure call. *)
Lemma cdx_msi_write_msg_masks_failure :
  let bad := mk_desc (mk_dev failing 7 4) 3 in
  let good := mk_desc (mk_dev quiet 7 4) 3 in
  IOError (dev_configure failing 0 0 (msi_conf_of bad sample_msg)) /\
  fst (fst (cdx_msi_write_msg bad sample_msg))
  = fst (fst (cdx_msi_write_msg good sample_msg)) /\
  msg (snd (fst (cdx_msi_write_msg bad sample_msg)))
  = msg (snd (fst (cdx_msi_write_msg good sample_msg))) /\
  ~ IOError (dev_configure quiet 0 0 (msi_conf_of good sample_msg)) /\
  snd (cdx_msi_write_msg bad sample_msg)
  = [dev_configure_call 0 0 (CDX_DEV_MSI_CONF 3 85 8589938688);
     dev_err "Write MSI failed to CDX controller"].
Proof.
  cbv zeta. repeat split; try reflexivity. unfold IOError. simpl. discriminate.
Qed.

End Msi.

(** ** main.c: the platform's constants *)

Section PlatformFacts.
Import VfioCdx.
Context `{Platform}.
Hypothesis ok : platform_ok.

Lemma PAGE_SIZE_pow2 : PAGE_SIZE = 2 ^ PAGE_SHIFT.
Proof.
  unfold PAGE_SIZE. destruct ok as [? _].
  rewrite Z.shiftl_mul_pow2 by lia. lia.
Qed.

Lemma PAGE_SIZE_pos : 0 < PAGE_SIZE.
Proof.
  rewrite PAGE_SIZE_pow2. destruct ok as [? _].
  apply Z.pow_pos_nonneg; lia.
Qed.

(** [x & ~PAGE_MASK] is the offset of [x] within its page. *)
Lemma land_not_PAGE_MASK x : Z.land x (Z.lnot PAGE_MASK) = x mod PAGE_SIZE.
Proof.
  unfold PAGE_MASK. rewrite Z.lnot_involutive, PAGE_SIZE_pow2.
  destruct ok as [? _].
  rewrite Z.sub_1_r, <- Z.ones_equiv. apply Z.land_ones. lia.
Qed.

(** The mask [(1U << (VFIO_CDX_OFFSET_SHIFT - PAGE_SHIFT)) - 1]. *)
Lemma pgoff_mask :
  u32 (u32 (Z.shiftl 1 (VFIO_CDX_OFFSET_SHIFT - PAGE_SHIFT)) - 1)
  = Z.ones (VFIO_CDX_OFFSET_SHIFT - PAGE_SHIFT).
Proof.
  destruct ok as (? & ? & _).
  set (n := VFIO_CDX_OFFSET_SHIFT - PAGE_SHIFT) in *.
  assert (Hn : 0 <= n < 32) by lia.
  assert (Hp : 0 < 2 ^ n < 2 ^ 32).
  { split; [apply Z.pow_pos_nonneg; lia |].
    apply Z.pow_lt_mono_r; lia. }
  rewrite Z.shiftl_mul_pow2, Z.mul_1_l by lia.
  unfold u32. rewrite (wrap_small 32 (2 ^ n)) by lia.
  rewrite wrap_small by lia.
  rewrite Z.ones_equiv. lia.
Qed.

End PlatformFacts.

(** ** main.c: region descriptors built at open *)

Lemma land_u32 x c : 0 <= c < 2 ^ 32 -> Z.land (u32 x) c = Z.land x c.
Proof.
  intros Hc. unfold u32, wrap.
  rewrite <- Z.land_ones by lia.
  rewrite <- Z.land_assoc. f_equal.
  rewrite Z.land_comm, Z.land_ones by lia. apply Z.mod_small. exact Hc.
Qed.

Lemma lor_range n a b :
  0 <= n -> 0 <= a < 2 ^ n -> 0 <= b < 2 ^ n -> 0 <= Z.lor a b < 2 ^ n.
Proof.
  intros Hn Ha Hb. split; [apply Z.lor_nonneg; lia |].
  assert (E : Z.lor a b = Z.lor a b mod 2 ^ n).
  { rewrite <- Z.land_ones, Z.land_lor_distr_l, !Z.land_ones by lia.
    rewrite !Z.mod_small by lia. reflexivity. }
  rewrite E. apply Z.mod_pos_bound. apply Z.pow_pos_nonneg; lia.
Qed.

Section OpenDevice.
Import VfioCdx.
Context `{Platform}.
Hypothesis ok : platform_ok.

Lemma open_region_zero rs :
  open_region zero_region rs
  = {| flags := region_flags rs; type := u32 (res_flags rs);
       addr := start rs; size := u64 (resource_size rs) |}.
Proof.
  destruct ok as (_ & _ & Hr & Hw & Hm & _).
  unfold open_region, region_flags, set_flag, zero_region.
  cbn [flags type addr size].
  set (al := (_ =? 0) && (_ =? 0)).
  set (rw := Z.land (res_flags rs) IORESOURCE_READONLY =? 0).
  assert (U1 : forall a, 0 <= a < 2 ^ 32 -> u32 a = a)
    by (intros a Ha; apply wrap_small; exact Ha).
  assert (B2 : forall a b, 0 <= a < 2 ^ 32 -> 0 <= b < 2 ^ 32 ->
                           0 <= Z.lor a b < 2 ^ 32)
    by (intros a b Ha Hb; apply lor_range; lia).
  destruct al, rw; cbn [flags type addr size]; f_equal;
    rewrite ?Z.lor_0_l;
    rewrite !U1; try reflexivity;
    repeat first [ lia | apply B2 | apply (wrap_range 32); lia ].
Qed.

Lemma region_flags_mmap rs :
  negb (Z.land (region_flags rs) VFIO_REGION_INFO_FLAG_MMAP =? 0) = true <->
  page_aligned (start rs) /\ page_aligned (u64 (resource_size rs)).
Proof.
  destruct ok as (_ & _ & Hr & Hw & Hm & Hrw & Hrm & Hwm & _).
  unfold region_flags, page_aligned.
  rewrite !(land_not_PAGE_MASK ok).
  destruct (Z.eqb_spec (start rs mod PAGE_SIZE) 0) as [Ea | Ea];
    destruct (Z.eqb_spec (u64 (resource_size rs) mod PAGE_SIZE) 0) as [Es | Es];
    destruct (Z.land (res_flags rs) IORESOURCE_READONLY =? 0);
    cbn [andb]; rewrite ?Z.land_lor_distr_l, ?Z.land_0_l, ?Z.land_diag,
                  ?Hrm, ?Hwm, ?Z.lor_0_l, ?Z.lor_0_r;
    (split; [intros Hb | intros [? ?]]);
    try (split; assumption); try contradiction; try discriminate;
    try (apply negb_true_iff, Z.eqb_neq; lia).
Qed.

Lemma region_flags_write rs :
  negb (Z.land (region_flags rs) VFIO_REGION_INFO_FLAG_WRITE =? 0) = true <->
  Z.land (res_flags rs) IORESOURCE_READONLY = 0.
Proof.
  destruct ok as (_ & _ & Hr & Hw & Hm & Hrw & Hrm & Hwm & _).
  assert (Hmw : Z.land VFIO_REGION_INFO_FLAG_MMAP
                       VFIO_REGION_INFO_FLAG_WRITE = 0)
    by (rewrite Z.land_comm; exact Hwm).
  unfold region_flags.
  destruct ((_ =? 0) && (_ =? 0));
    destruct (Z.eqb_spec (Z.land (res_flags rs) IORESOURCE_READONLY) 0)
      as [Ero | Ero];
    rewrite ?Z.land_lor_distr_l, ?Z.land_0_l, ?Z.land_diag,
      ?Hrw, ?Hmw, ?Z.lor_0_l, ?Z.lor_0_r;
    (split; [intros Hb | intros ?]);
    try assumption; try contradiction; try discriminate;
    try (apply negb_true_iff, Z.eqb_neq; lia).
Qed.

Lemma region_flags_read rs :
  negb (Z.land (region_flags rs) VFIO_REGION_INFO_FLAG_READ =? 0) = true.
Proof.
  destruct ok as (_ & _ & Hr & Hw & Hm & Hrw & Hrm & Hwm & _).
  assert (Hmr : Z.land VFIO_REGION_INFO_FLAG_MMAP
                       VFIO_REGION_INFO_FLAG_READ = 0)
    by (rewrite Z.land_comm; exact Hrm).
  assert (Hwr : Z.land VFIO_REGION_INFO_FLAG_WRITE
                       VFIO_REGION_INFO_FLAG_READ = 0)
    by (rewrite Z.land_comm; exact Hrw).
  unfold region_flags.
  destruct ((_ =? 0) && (_ =? 0));
    destruct (Z.land (res_flags rs) IORESOURCE_READONLY =? 0);
    rewrite ?Z.land_lor_distr_l, ?Z.land_0_l, ?Z.land_diag,
      ?Hmr, ?Hwr, ?Z.lor_0_l, ?Z.lor_0_r;
    apply negb_true_iff, Z.eqb_neq; lia.
Qed.

(** The loop body sets READ whatever the entry held before. *)
Lemma open_region_readable r0 rs :
  has_flag (open_region r0 rs) VFIO_REGION_INFO_FLAG_READ = true.
Proof.
  destruct ok as (_ & _ & Hr & Hw & Hm & Hrw & Hrm & Hwm & _).
  assert (Hwr : Z.land VFIO_REGION_INFO_FLAG_WRITE
                       VFIO_REGION_INFO_FLAG_READ = 0)
    by (rewrite Z.land_comm; exact Hrw).
  assert (Hset : forall f,
             Z.land (Z.lor f VFIO_REGION_INFO_FLAG_READ)
                    VFIO_REGION_INFO_FLAG_READ <> 0).
  { intros f E. rewrite Z.land_lor_distr_l, Z.land_diag in E.
    apply Z.lor_eq_0_iff in E. lia. }
  unfold has_flag, open_region, set_flag.
  apply negb_true_iff, Z.eqb_neq.
  destruct ((_ =? 0) && (_ =? 0));
    destruct (Z.land (res_flags rs) IORESOURCE_READONLY =? 0);
    cbn [flags];
    rewrite ?land_u32, ?Z.land_lor_distr_l, ?Hwr, ?Z.lor_0_r by lia;
    rewrite <- ?Z.land_lor_distr_l; rewrite ?land_u32 by lia; apply Hset.
Qed.

End OpenDevice.

Section OpenLoop.
Import VfioCdx.
Context `{Platform}.

(** The loop writes entries [i .. i+n-1], each from its own resource,
    and leaves the others alone. *)
Lemma open_loop_spec n : forall i rs regs,
  (i + n <= length rs)%nat -> (i + n <= length regs)%nat ->
  exists regs',
    open_loop n i rs regs = Some regs' /\
    length regs' = length regs /\
    forall j,
      regs' !! j =
      if bool_decide (i <= j < i + n)%nat
      then match regs !! j, rs !! j with
           | Some r0, Some r => Some (open_region r0 r)
           | _, _ => None
           end
      else regs !! j.
Proof.
  induction n as [| n IH]; intros i rs regs Hrs Hregs.
  - exists regs. repeat split. intros j.
    rewrite bool_decide_eq_false_2 by lia. reflexivity.
  - cbn [open_loop].
    destruct (lookup_lt_is_Some_2 rs i) as [r Hr]; [lia |].
    destruct (lookup_lt_is_Some_2 regs i) as [r0 Hr0]; [lia |].
    rewrite Hr, Hr0.
    destruct (IH (S i) rs (<[i := open_region r0 r]> regs))
      as (regs' & Hrun & Hlen & Hget).
    { lia. }
    { rewrite length_insert. lia. }
    exists regs'. split; [exact Hrun |].
    split; [rewrite Hlen; apply length_insert |].
    intros j. rewrite Hget.
    destruct (decide (j = i)) as [-> | Hne].
    + rewrite bool_decide_eq_false_2 by lia.
      rewrite bool_decide_eq_true_2 by lia.
      rewrite list_lookup_insert_eq by lia.
      rewrite Hr, Hr0. reflexivity.
    + rewrite list_lookup_insert_ne by congruence.
      destruct (decide (S i <= j < S i + n)%nat) as [Hin | Hout].
      * rewrite !bool_decide_eq_true_2 by lia. reflexivity.
      * rewrite !bool_decide_eq_false_2 by lia. reflexivity.
Qed.

(** What holds of every value the loop body produces holds of every
    entry of the array the loop returns, once the loop covers the array. *)
Lemma open_loop_inv (P : vfio_cdx_region -> Prop) :
  (forall r0 rs, P (open_region r0 rs)) ->
  forall n i rs regs regs',
    open_loop n i rs regs = Some regs' ->
    (length regs <= i + n)%nat ->
    (forall j reg, (j < i)%nat -> regs !! j = Some reg -> P reg) ->
    forall j reg, regs' !! j = Some reg -> P reg.
Proof.
  intros Hbody. induction n as [| n IH]; intros i rs regs regs' Hrun Hlen Hdone.
  - injection Hrun as <-. intros j reg Hj.
    apply (Hdone j reg); [| exact Hj].
    apply lookup_lt_Some in Hj. lia.
  - cbn [open_loop] in Hrun.
    destruct (rs !! i) as [r |]; [| discriminate].
    destruct (regs !! i) as [r0 |] eqn:Hr0; [| discriminate].
    apply (IH (S i) rs _ regs' Hrun).
    + rewrite length_insert. lia.
    + intros j reg Hj Hget.
      destruct (decide (j = i)) as [-> | Hne].
      * rewrite list_lookup_insert_eq in Hget
          by (eapply lookup_lt_Some; exact Hr0).
        injection Hget as <-. apply Hbody.
      * rewrite list_lookup_insert_ne in Hget by congruence.
        apply (Hdone j reg); [lia | exact Hget].
Qed.

(** Open on a well-formed device with storage available: the result is
    0 and entry [i] is the loop body applied to a zeroed entry and
    [res[i]]. *)
Lemma vfio_cdx_open_device_regions d vdev :
  cdx_device_ok d ->
  exists regs,
    vfio_cdx_open_device true d vdev = Some (0, {| regions := Some regs |}) /\
    length regs = Z.to_nat (res_count d) /\
    forall i reg, regs !! i = Some reg ->
      exists rs, res d !! i = Some rs /\ reg = open_region zero_region rs.
Proof.
  intros [Hlen Hcount]. unfold vfio_cdx_open_device, kcalloc.
  destruct (open_loop_spec (Z.to_nat (res_count d)) 0 (res d)
              (replicate (Z.to_nat (res_count d)) zero_region))
    as (regs & Hrun & Hl & Hget).
  { rewrite Hlen. lia. }
  { rewrite length_replicate. lia. }
  rewrite Hrun. exists regs. split; [reflexivity |].
  rewrite length_replicate in Hl. split; [exact Hl |].
  intros i reg Hi.
  assert (Hlt : (i < Z.to_nat (res_count d))%nat).
  { rewrite <- Hl. eapply lookup_lt_Some. exact Hi. }
  rewrite Hget in Hi. rewrite bool_decide_eq_true_2 in Hi by lia.
  rewrite lookup_replicate_2 in Hi by lia.
  destruct (res d !! i) as [rs |] eqn:Hrs; [| discriminate].
  exists rs. split; [reflexivity |]. cbn in Hi. congruence.
Qed.

(** Open without storage: -ENOMEM and a null region array. *)
Lemma vfio_cdx_open_device_nomem d vdev :
  vfio_cdx_open_device false d vdev = Some (- ENOMEM, {| regions := None |}).
Proof. reflexivity. Qed.

End OpenLoop.

(** Side conditions on the sample platform and devices hold by
    evaluation. *)
Ltac concrete :=
  unfold VfioCdx.platform_ok, VfioCdx.cdx_device_ok, VfioCdx.vma_ok,
    VfioCdx.arm64_4k;
  cbn; repeat split; first [reflexivity | lia].

Lemma arm64_4k_ok : @VfioCdx.platform_ok VfioCdx.arm64_4k.
Proof. concrete. Qed.

Lemma sample_dev_ok : @VfioCdx.cdx_device_ok VfioCdx.arm64_4k sample_dev.
Proof. concrete. Qed.

(** The scenario of the specification: region0 gets READ, WRITE and MMAP
    (7), region1 gets READ alone (1). *)
Lemma sample_dev_opens :
  @VfioCdx.vfio_cdx_open_device VfioCdx.arm64_4k true sample_dev closed_session
  = Some (0, sample_session).
Proof. vm_compute. reflexivity. Qed.

Section Catalog.
Import VfioCdx.
Context `{Platform}.

(** C5: at open, every descriptor takes address and size from its
    resource; MMAP is set exactly when address and size are both
    page-aligned, WRITE exactly when the resource is not read-only,
    READ always.  An aligned writable region carries the three flags,
    a misaligned read-only region READ alone. *)
Theorem vfio_cdx_open_device_flags (d : cdx_device) (vdev : vfio_cdx_device) :
  platform_ok -> cdx_device_ok d ->
  exists regs,
    vfio_cdx_open_device true d vdev = Some (0, {| regions := Some regs |}) /\
    length regs = Z.to_nat (res_count d) /\
    forall i, (i < Z.to_nat (res_count d))%nat ->
      exists rs reg,
        res d !! i = Some rs /\ regs !! i = Some reg /\
        addr reg = start rs /\ size reg = u64 (resource_size rs) /\
        (has_flag reg VFIO_REGION_INFO_FLAG_MMAP = true <->
         page_aligned (addr reg) /\ page_aligned (size reg)) /\
        (has_flag reg VFIO_REGION_INFO_FLAG_WRITE = true <->
         Z.land (res_flags rs) IORESOURCE_READONLY = 0) /\
        has_flag reg VFIO_REGION_INFO_FLAG_READ = true /\
        (page_aligned (addr reg) /\ page_aligned (size reg) ->
         Z.land (res_flags rs) IORESOURCE_READONLY = 0 ->
         flags reg = Z.lor (Z.lor VFIO_REGION_INFO_FLAG_MMAP
                                  VFIO_REGION_INFO_FLAG_READ)
                           VFIO_REGION_INFO_FLAG_WRITE) /\
        (~ (page_aligned (addr reg) /\ page_aligned (size reg)) ->
         Z.land (res_flags rs) IORESOURCE_READONLY <> 0 ->
         flags reg = VFIO_REGION_INFO_FLAG_READ).
Proof.
  intros ok Hd.
  destruct (vfio_cdx_open_device_regions d vdev Hd)
    as (regs & Hrun & Hl & Hget).
  exists regs. split; [exact Hrun |]. split; [exact Hl |].
  intros i Hi.
  destruct (lookup_lt_is_Some_2 regs i) as [reg Hreg]; [lia |].
  destruct (Hget i reg Hreg) as (rs & Hrs & ->).
  exists rs, (open_region zero_region rs).
  rewrite (open_region_zero ok) in *. unfold has_flag. cbn [flags addr size].
  split; [exact Hrs |]. split; [exact Hreg |].
  split; [reflexivity |]. split; [reflexivity |].
  split; [apply (region_flags_mmap ok) |].
  split; [apply (region_flags_write ok) |].
  split; [apply (region_flags_read ok) |].
  unfold page_aligned, region_flags. rewrite !(land_not_PAGE_MASK ok).
  split.
  - intros [-> ->] ->. reflexivity.
  - intros Hna Hro.
    destruct (Z.eqb_spec (Z.land (res_flags rs) IORESOURCE_READONLY) 0);
      [contradiction |].
    destruct (Z.eqb_spec (start rs mod PAGE_SIZE) 0);
      destruct (Z.eqb_spec (u64 (resource_size rs) mod PAGE_SIZE) 0);
      cbn [andb]; rewrite ?Z.lor_0_l; try reflexivity.
    exfalso. apply Hna. split; assumption.
Qed.

(** C10: every descriptor an open produces has READ set, whatever the
    resource's flags are, so the read test of [vfio_cdx_mmap] is false
    for it on every request. *)
Theorem opened_regions_readable (d : cdx_device) (vdev vdev' : vfio_cdx_device)
        (kcalloc_ok : bool) (ret : Z) :
  platform_ok ->
  vfio_cdx_open_device kcalloc_ok d vdev = Some (ret, vdev') ->
  forall regs i reg,
    regions vdev' = Some regs -> regs !! i = Some reg ->
    has_flag reg VFIO_REGION_INFO_FLAG_READ = true /\
    forall vma, read_refused reg vma = false.
Proof.
  intros ok Hopen regs i reg Hregs Hreg.
  assert (Hr : has_flag reg VFIO_REGION_INFO_FLAG_READ = true).
  { unfold vfio_cdx_open_device, kcalloc in Hopen.
    destruct kcalloc_ok.
    - destruct (open_loop _ _ _ _) as [regs0 |] eqn:Hrun; [| discriminate].
      injection Hopen as <- <-. cbn in Hregs. injection Hregs as ->.
      apply (open_loop_inv
               (fun r => has_flag r VFIO_REGION_INFO_FLAG_READ = true)
               (open_region_readable ok) _ _ _ _ _ Hrun) with (j := i).
      + rewrite length_replicate. lia.
      + intros j r Hj. lia.
      + exact Hreg.
    - injection Hopen as <- <-. discriminate. }
  split; [exact Hr |].
  intros vma. unfold read_refused. unfold has_flag in Hr.
  apply negb_true_iff in Hr. rewrite Hr. reflexivity.
Qed.

End Catalog.

Lemma vfio_cdx_open_device_flags_witness :
  exists regs,
    @VfioCdx.vfio_cdx_open_device VfioCdx.arm64_4k true sample_dev
      closed_session
    = Some (0, {| VfioCdx.regions := Some regs |}) /\
    length regs = 3%nat.
Proof.
  destruct (@vfio_cdx_open_device_flags VfioCdx.arm64_4k sample_dev
              closed_session)
    as (regs & Hrun & Hlen & _).
  - concrete.
  - concrete.
  - exists regs. split; [exact Hrun | exact Hlen].
Defined.

Lemma opened_regions_readable_witness :
  VfioCdx.has_flag
    {| VfioCdx.flags := 1; VfioCdx.type := 16896;
       VfioCdx.addr := 4660; VfioCdx.size := 16 |} 1 = true.
Proof.
  refine (proj1 (@opened_regions_readable VfioCdx.arm64_4k sample_dev
                   closed_session sample_session true 0 _ _
                   _ 1%nat _ eq_refl eq_refl)).
  - concrete.
  - vm_compute. reflexivity.
Defined.

(** ** main.c: region offsets and the mapping path *)

Section Mapper.
Import VfioCdx.
Context `{Platform}.
Hypothesis ok : platform_ok.

Lemma offset_shift_bounds :
  0 <= PAGE_SHIFT /\ 0 <= VFIO_CDX_OFFSET_SHIFT - PAGE_SHIFT < 32 /\
  0 < 2 ^ VFIO_CDX_OFFSET_SHIFT /\ 2 ^ VFIO_CDX_OFFSET_SHIFT <= 2 ^ 64.
Proof.
  destruct ok as (? & ? & _ & _ & _ & _ & _ & _ & ? & ? & _).
  assert (0 < 2 ^ VFIO_CDX_OFFSET_SHIFT) by (apply Z.pow_pos_nonneg; lia).
  lia.
Qed.

Lemma index_to_offset_exact d i :
  cdx_device_ok d -> 0 <= i < res_count d ->
  vfio_cdx_index_to_offset i = Z.shiftl i VFIO_CDX_OFFSET_SHIFT.
Proof.
  intros [_ Hc] Hi.
  destruct offset_shift_bounds as (HP & Hn & Hpos & _).
  destruct ok as (_ & _ & _ & _ & _ & _ & _ & _ & _ & _ & _ & Hmax).
  unfold vfio_cdx_index_to_offset, u64. apply wrap_small.
  rewrite Z.shiftl_mul_pow2 by lia. nia.
Qed.

Lemma mmap_index_roundtrip d i :
  cdx_device_ok d -> 0 <= i < res_count d ->
  mmap_index (offset_to_pgoff (vfio_cdx_index_to_offset i)) = i.
Proof.
  intros Hd Hi. rewrite (index_to_offset_exact d) by assumption.
  destruct offset_shift_bounds as (HP & Hn & _).
  destruct ok as (_ & _ & _ & _ & _ & _ & _ & _ & _ & _ & Hm & _).
  destruct Hd as [_ Hc].
  unfold mmap_index, offset_to_pgoff.
  rewrite Z.shiftr_shiftr by lia.
  replace (PAGE_SHIFT + (VFIO_CDX_OFFSET_SHIFT - PAGE_SHIFT))
    with VFIO_CDX_OFFSET_SHIFT by lia.
  rewrite Z.shiftr_shiftl_l by lia.
  rewrite Z.sub_diag, Z.shiftl_0_r.
  apply wrap_small. lia.
Qed.

Lemma mmap_index_range pgoff : 0 <= mmap_index pgoff < 2 ^ 32.
Proof. unfold mmap_index, u32. apply wrap_range. lia. Qed.

(** With an open session [regions[index]] is read inside the array. *)
Lemma vfio_cdx_mmap_defined d vdev vma :
  session_open d vdev -> exists r, vfio_cdx_mmap d vdev vma = Some r.
Proof.
  intros (regs & Hregs & Hlen). unfold vfio_cdx_mmap.
  destruct (Z.geb_spec (mmap_index (vm_pgoff vma)) (res_count d))
    as [Hge | Hlt].
  - eexists. reflexivity.
  - rewrite Hregs. cbn.
    pose proof (mmap_index_range (vm_pgoff vma)) as Hr.
    destruct (lookup_lt_is_Some_2 regs (Z.to_nat (mmap_index (vm_pgoff vma))))
      as [region Hregion]; [lia |].
    rewrite Hregion.
    destruct (mmap_refused region); [eexists; reflexivity |].
    destruct (read_refused region vma); [eexists; reflexivity |].
    destruct (write_refused region vma); eexists; reflexivity.
Qed.

(** The bounds test of [vfio_cdx_mmap_mmio] on a well-formed vma, in
    unbounded arithmetic. *)
Lemma vfio_cdx_mmap_mmio_test region vma :
  vma_ok vma ->
  let sz := u64 (vm_end vma - vm_start vma) in
  let pgoff :=
    Z.land (vm_pgoff vma)
           (u32 (u32 (Z.shiftl 1 (VFIO_CDX_OFFSET_SHIFT - PAGE_SHIFT)) - 1)) in
  let base := u64 (Z.shiftl pgoff PAGE_SHIFT) in
  ((size region <? PAGE_SIZE) || (u64 (base + sz) >? size region))
  = ((size region <? PAGE_SIZE) ||
     (page_offset_bytes vma + request_length vma >? size region)).
Proof.
  intros (Hse & Hend & Hpg). cbv zeta.
  destruct offset_shift_bounds as (HP & Hn & Hpos & Hle).
  destruct ok as (_ & _ & _ & _ & _ & _ & _ & _ & Ht0 & Ht & _).
  rewrite (pgoff_mask ok), Z.land_ones by lia.
  unfold page_offset_bytes, request_length.
  rewrite (PAGE_SIZE_pow2 ok).
  set (n := VFIO_CDX_OFFSET_SHIFT - PAGE_SHIFT) in *.
  assert (Hq : 0 <= vm_pgoff vma mod 2 ^ n < 2 ^ n)
    by (apply Z.mod_pos_bound, Z.pow_pos_nonneg; lia).
  assert (Hpp : 0 < 2 ^ PAGE_SHIFT) by (apply Z.pow_pos_nonneg; lia).
  assert (Hsplit : 2 ^ VFIO_CDX_OFFSET_SHIFT = 2 ^ n * 2 ^ PAGE_SHIFT).
  { rewrite <- Z.pow_add_r by lia. f_equal. lia. }
  assert (Hb : 0 <= vm_pgoff vma mod 2 ^ n * 2 ^ PAGE_SHIFT
               < 2 ^ VFIO_CDX_OFFSET_SHIFT) by nia.
  rewrite Z.shiftl_mul_pow2 by lia.
  unfold u64.
  rewrite (wrap_small 64 (vm_end vma - vm_start vma)) by lia.
  rewrite (wrap_small 64 (_ * _)) by lia.
  rewrite wrap_small by lia.
  reflexivity.
Qed.

Lemma vfio_cdx_mmap_mmio_rejects region vma :
  vma_ok vma ->
  size region < PAGE_SIZE \/
  page_offset_bytes vma + request_length vma > size region ->
  vfio_cdx_mmap_mmio region vma = (- EINVAL, vma, []).
Proof.
  intros Hvma Hbad. unfold vfio_cdx_mmap_mmio.
  rewrite (vfio_cdx_mmap_mmio_test region vma Hvma).
  replace ((size region <? PAGE_SIZE) ||
           (page_offset_bytes vma + request_length vma >? size region))
    with true; [reflexivity |].
  symmetry. apply orb_true_iff.
  destruct Hbad as [Hs | Ho]; [left; lia | right; lia].
Qed.

Lemma page_offset_bytes_nonneg vma : 0 <= page_offset_bytes vma.
Proof.
  destruct offset_shift_bounds as (HP & Hn & _).
  unfold page_offset_bytes. pose proof (PAGE_SIZE_pos ok).
  assert (0 <= vm_pgoff vma mod 2 ^ (VFIO_CDX_OFFSET_SHIFT - PAGE_SHIFT))
    by (apply Z.mod_pos_bound, Z.pow_pos_nonneg; lia).
  nia.
Qed.

End Mapper.

Section MapperClaims.
Import VfioCdx.
Context `{Platform}.

(** C2: the offset GET_REGION_INFO reports for a valid region index
    decodes, through the page offset of the mapping request, to that
    index; the decode yields an index for every offset, and with an
    open session [vfio_cdx_mmap] returns for every request, also one
    whose offset encodes no region. *)
Theorem region_offset_roundtrip (d : cdx_device) :
  platform_ok -> cdx_device_ok d ->
  (forall i, 0 <= i < res_count d ->
     mmap_index (offset_to_pgoff (vfio_cdx_index_to_offset i)) = i) /\
  (forall vdev arg info,
     0 <= ri_index info ->
     vfio_cdx_ioctl_get_region_info d vdev arg = Some (0, Some info) ->
     ri_index info < res_count d /\
     mmap_index (offset_to_pgoff (ri_offset info)) = ri_index info) /\
  (forall offset, 0 <= mmap_index (offset_to_pgoff offset) < 2 ^ 32) /\
  (forall vdev vma, session_open d vdev ->
     exists r, vfio_cdx_mmap d vdev vma = Some r) /\
  (forall vdev vma, res_count d <= mmap_index (vm_pgoff vma) ->
     vfio_cdx_mmap d vdev vma = Some (- EINVAL, vma, [])).
Proof.
  intros ok Hd. split; [| split; [| split; [| split]]].
  - intros i Hi. apply (mmap_index_roundtrip ok d); assumption.
  - intros vdev arg info Hidx Hcall.
    unfold vfio_cdx_ioctl_get_region_info in Hcall.
    destruct (readable arg) as [info0 |]; [| discriminate].
    destruct (ri_argsz info0 <? region_info_minsz); [discriminate |].
    destruct (Z.geb_spec (ri_index info0) (res_count d)) as [Hge | Hlt];
      [discriminate |].
    destruct (regions vdev ≫= _) as [region |]; [| discriminate].
    destruct (writable arg); [| discriminate].
    injection Hcall as <-. cbn [ri_index ri_offset] in *.
    split; [exact Hlt |].
    apply (mmap_index_roundtrip ok d); [exact Hd | lia].
  - intros offset. apply mmap_index_range.
  - intros vdev vma Hopen. apply (vfio_cdx_mmap_defined d vdev vma Hopen).
  - intros vdev vma Hge. unfold vfio_cdx_mmap.
    destruct (Z.geb_spec (mmap_index (vm_pgoff vma)) (res_count d));
      [reflexivity | lia].
Qed.

(** C3: a request on a range of user addresses is refused with
    -EINVAL, the vma untouched and no mapping call made, when its index
    is not below the region count, or the region is smaller than a
    page, or page offset plus length exceeds the region's size; so is
    every request longer than the region. *)
Theorem vfio_cdx_mmap_bounds (d : cdx_device) (vdev : vfio_cdx_device)
        (vma : vm_area_struct) :
  platform_ok -> vma_ok vma ->
  let index := mmap_index (vm_pgoff vma) in
  (res_count d <= index \/
   exists regs region,
     regions vdev = Some regs /\ regs !! Z.to_nat index = Some region /\
     (size region < PAGE_SIZE \/
      page_offset_bytes vma + request_length vma > size region \/
      request_length vma > size region)) ->
  vfio_cdx_mmap d vdev vma = Some (- EINVAL, vma, []) /\
  InvalidArgument (- EINVAL).
Proof.
  intros ok Hvma index Hbad. split; [| reflexivity].
  unfold vfio_cdx_mmap. fold index.
  destruct (index >=? res_count d) eqn:Hcmp; [reflexivity |].
  destruct Hbad as [Hge | (regs & region & Hregs & Hregion & Hcase)].
  { rewrite Z.geb_leb in Hcmp. apply Z.leb_gt in Hcmp. lia. }
  rewrite Hregs. cbn. rewrite Hregion.
  destruct (mmap_refused region); [reflexivity |].
  destruct (read_refused region vma); [reflexivity |].
  destruct (write_refused region vma); [reflexivity |].
  f_equal. apply (vfio_cdx_mmap_mmio_rejects ok region vma Hvma).
  pose proof (page_offset_bytes_nonneg ok vma).
  destruct Hcase as [? | [? | ?]]; [left | right | right]; lia.
Qed.

(** C4, as the code has it: a request on a region without MMAP, or a
    write request on a region without WRITE, is refused with -EINVAL,
    the same code as every other refusal of the mapping path; the vma
    is untouched and no mapping call is made. *)
Theorem vfio_cdx_mmap_access (d : cdx_device) (vdev : vfio_cdx_device)
        (vma : vm_area_struct) (regs : list vfio_cdx_region)
        (region : vfio_cdx_region) :
  regions vdev = Some regs ->
  regs !! Z.to_nat (mmap_index (vm_pgoff vma)) = Some region ->
  has_flag region VFIO_REGION_INFO_FLAG_MMAP = false \/
  (Z.land (vm_flags vma) VM_WRITE <> 0 /\
   has_flag region VFIO_REGION_INFO_FLAG_WRITE = false) ->
  vfio_cdx_mmap d vdev vma = Some (- EINVAL, vma, []) /\
  InvalidArgument (- EINVAL) /\ ~ PermissionDenied (- EINVAL).
Proof.
  intros Hregs Hregion Hcase.
  split; [| split; [reflexivity | intros [E | E]; discriminate E]].
  unfold vfio_cdx_mmap.
  destruct (_ >=? res_count d); [reflexivity |].
  rewrite Hregs. cbn. rewrite Hregion.
  unfold has_flag in Hcase.
  destruct Hcase as [Hm | [Hw Hf]].
  - unfold mmap_refused. apply negb_false_iff in Hm. rewrite Hm. reflexivity.
  - destruct (mmap_refused region); [reflexivity |].
    destruct (read_refused region vma); [reflexivity |].
    unfold write_refused. apply negb_false_iff in Hf. rewrite Hf.
    apply Z.eqb_neq in Hw. rewrite Hw. reflexivity.
Qed.

End MapperClaims.

Lemma region_offset_roundtrip_witness :
  @VfioCdx.mmap_index VfioCdx.arm64_4k
    (@VfioCdx.offset_to_pgoff VfioCdx.arm64_4k
       (@VfioCdx.vfio_cdx_index_to_offset VfioCdx.arm64_4k 2)) = 2.
Proof.
  apply (proj1 (@region_offset_roundtrip VfioCdx.arm64_4k sample_dev
                  ltac:(concrete)
                  ltac:(concrete))).
  cbn. lia.
Defined.

(** A request for two pages of the one-page region0 is refused whole. *)
Lemma vfio_cdx_mmap_bounds_witness :
  @VfioCdx.vfio_cdx_mmap VfioCdx.arm64_4k sample_dev sample_session
    (request 0 8192 1)
  = Some (- EINVAL, request 0 8192 1, []).
Proof.
  apply (@vfio_cdx_mmap_bounds VfioCdx.arm64_4k sample_dev sample_session
           (request 0 8192 1)).
  - concrete.
  - concrete.
  - right. eexists _, _. split; [reflexivity |]. split; [reflexivity |].
    right. right. vm_compute. reflexivity.
Defined.

(** A read request on region1, which is not page-aligned. *)
Lemma vfio_cdx_mmap_access_witness :
  @VfioCdx.vfio_cdx_mmap VfioCdx.arm64_4k sample_dev sample_session
    (request (2 ^ 40) 4096 1)
  = Some (- EINVAL, request (2 ^ 40) 4096 1, []).
Proof.
  eapply (@vfio_cdx_mmap_access VfioCdx.arm64_4k sample_dev sample_session
            (request (2 ^ 40) 4096 1)).
  - reflexivity.
  - vm_compute. reflexivity.
  - left. vm_compute. reflexivity.
Defined.

(** C4 fails where it names the error: on the opened sample device a
    read request on region1 (no MMAP flag) and a write request on the
    read-only region2 both end in -EINVAL, which is InvalidArgument and
    not PermissionDenied. *)
Lemma vfio_cdx_mmap_refuses_with_einval :
  let no_map := request (2 ^ 40) 4096 1 in
  let no_write := request (2 * 2 ^ 40) 4096 3 in
  VfioCdx.has_flag {| VfioCdx.flags := 1; VfioCdx.type := 16896;
                      VfioCdx.addr := 4660; VfioCdx.size := 16 |} 4 = false /\
  VfioCdx.has_flag {| VfioCdx.flags := 5; VfioCdx.type := 16896;
                      VfioCdx.addr := 8192; VfioCdx.size := 4096 |} 2 = false /\
  @VfioCdx.vfio_cdx_mmap VfioCdx.arm64_4k sample_dev sample_session no_map
  = Some (- EINVAL, no_map, []) /\
  @VfioCdx.vfio_cdx_mmap VfioCdx.arm64_4k sample_dev sample_session no_write
  = Some (- EINVAL, no_write, []) /\
  ~ PermissionDenied (- EINVAL).
Proof.
  cbv zeta. repeat split; try (vm_compute; reflexivity).
  intros [E | E]; discriminate E.
Qed.

(** ** main.c: closing a session, interrupt information *)

Section Session.
Import VfioCdx.
Context `{Platform}.

(** C7: close frees the region array, resets the device, then cleans
    up the interrupts, in this order; a failed reset adds a warning
    between reset and interrupt cleanup and changes nothing else. *)
Theorem vfio_cdx_close_device_order (d : cdx_device) (vdev : vfio_cdx_device) :
  vfio_cdx_close_device d vdev
  = (tt,
     if cdx_dev_reset d =? 0
     then [kfree_regions; cdx_dev_reset_call; vfio_cdx_irqs_cleanup]
     else [kfree_regions; cdx_dev_reset_call;
           dev_warn "VFIO_CDX: reset device has failed (%d)" (cdx_dev_reset d);
           vfio_cdx_irqs_cleanup]).
Proof.
  unfold vfio_cdx_close_device, vfio_cdx_regions_cleanup.
  unfold extern, bind, when, emit, pure.
  destruct (cdx_dev_reset d =? 0); reflexivity.
Qed.

(** C9: a GET_IRQ_INFO request read from the caller is refused with
    -EINVAL when its index is 1 or more; with index 0, the minimum
    argument size and a writable buffer it returns 0 and writes back
    the EVENTFD flag and the device's number of vectors. *)
Theorem vfio_cdx_ioctl_get_irq_info_index (d : cdx_device)
        (arg : user_ptr vfio_irq_info) (info : vfio_irq_info) :
  readable arg = Some info ->
  (1 <= ii_index info ->
   vfio_cdx_ioctl_get_irq_info d arg = (- EINVAL, None)) /\
  (ii_index info = 0 -> irq_info_minsz <= ii_argsz info ->
   writable arg = true ->
   vfio_cdx_ioctl_get_irq_info d arg
   = (0, Some {| ii_argsz := ii_argsz info;
                 ii_flags := VFIO_IRQ_INFO_EVENTFD;
                 ii_index := 0;
                 ii_count := num_msi d |})).
Proof.
  intros Hread. unfold vfio_cdx_ioctl_get_irq_info. rewrite Hread. split.
  - intros Hidx.
    destruct (ii_argsz info <? irq_info_minsz); [reflexivity |].
    destruct (Z.geb_spec (ii_index info) 1); [reflexivity | lia].
  - intros Hidx Hsz ->.
    destruct (Z.ltb_spec (ii_argsz info) irq_info_minsz); [lia |].
    rewrite Hidx. reflexivity.
Qed.

End Session.

Lemma vfio_cdx_ioctl_get_irq_info_index_witness :
  @VfioCdx.vfio_cdx_ioctl_get_irq_info VfioCdx.arm64_4k sample_dev (irq_query 1)
  = (- EINVAL, None) /\
  @VfioCdx.vfio_cdx_ioctl_get_irq_info VfioCdx.arm64_4k sample_dev (irq_query 0)
  = (0, Some {| VfioCdx.ii_argsz := 16; VfioCdx.ii_flags := 1;
                VfioCdx.ii_index := 0; VfioCdx.ii_count := 4 |}).
Proof.
  split.
  - apply (proj1 (@vfio_cdx_ioctl_get_irq_info_index VfioCdx.arm64_4k
                    sample_dev (irq_query 1) (irq_info_request 1) eq_refl)).
    cbn. lia.
  - apply (proj2 (@vfio_cdx_ioctl_get_irq_info_index VfioCdx.arm64_4k
                    sample_dev (irq_query 0) (irq_info_request 0) eq_refl));
      [reflexivity | cbn; lia | reflexivity].
Defined.

(** * Further properties of the code *)

(** ** cdx_msi.c *)

Section MsiMore.
Import CdxMsi.

(** X1: the identity [cdx_msi_set_desc] stores for a descriptor with a
    32-bit requestor ID and a vector index below 1024 decodes back to
    both: the bits from 10 up are the requestor ID, the low 10 bits the
    index; it fits 42 bits and the descriptor is recorded. *)
Theorem cdx_msi_set_desc_decodes (arg : msi_alloc_info) (d : msi_desc) :
  0 <= req_id (dev d) < 2 ^ 32 -> 0 <= msi_index d < 2 ^ REQ_ID_SHIFT ->
  let arg' := cdx_msi_set_desc arg d in
  desc arg' = Some d /\
  Z.shiftr (hwirq arg') REQ_ID_SHIFT = req_id (dev d) /\
  Z.land (hwirq arg') (Z.ones REQ_ID_SHIFT) = msi_index d /\
  0 <= hwirq arg' < 2 ^ 42.
Proof.
  intros Hr Hi. cbv zeta. unfold cdx_msi_set_desc. cbn [desc hwirq].
  rewrite cdx_domain_calc_hwirq_low by assumption.
  unfold REQ_ID_SHIFT in *.
  rewrite Z.shiftr_div_pow2, Z.land_ones by lia.
  change (2 ^ 10) with 1024 in *.
  split; [reflexivity |].
  split; [| split].
  - rewrite Z.add_comm, Z.div_add by lia. rewrite Z.div_small by lia. lia.
  - rewrite Z.add_comm, Z.mod_add by lia. apply Z.mod_small. lia.
  - lia.
Qed.

(** The three ways through [cdx_msi_domain_alloc_irqs]. *)
Lemma cdx_msi_domain_alloc_irqs_cases (m : msi_core) (irq_count : Z) :
  cdx_msi_domain_alloc_irqs m irq_count =
  let checked := [msi_setup_device_data_call; msi_lock_descs;
                  msi_first_desc_call; msi_unlock_descs] in
  if msi_setup_device_data m =? 0 then
    match msi_descs m with
    | [] =>
        (msi_domain_alloc_irqs m (s32 irq_count),
         checked ++ msi_domain_alloc_irqs_call (s32 irq_count) ::
           (if msi_domain_alloc_irqs m (s32 irq_count) =? 0 then []
            else [dev_err "Failed to allocate IRQs"]))
    | _ :: _ => (- EINVAL, checked)
    end
  else (msi_setup_device_data m, [msi_setup_device_data_call]).
Proof.
  unfold cdx_msi_domain_alloc_irqs, msi_first_desc.
  unfold extern, bind, when, emit, pure. cbv zeta.
  destruct (Z.eqb_spec (msi_setup_device_data m) 0) as [Hs | Hs];
    cbn [negb]; [| reflexivity].
  destruct (msi_descs m) as [| d0 ds]; cbn [head].
  - rewrite Hs. change (0 =? 0) with true. cbn [negb].
    destruct (msi_domain_alloc_irqs m (s32 irq_count) =? 0); reflexivity.
  - change (- EINVAL =? 0) with false. reflexivity.
Qed.

(** X2: [cdx_msi_domain_alloc_irqs] returns 0 exactly when the MSI data
    was set up, the device held no descriptor and the allocation in the
    MSI domain, asked for [irq_count] converted to [int], succeeded; the
    allocation failure line is logged exactly when the allocation was
    attempted and failed. *)
Theorem cdx_msi_domain_alloc_irqs_success (m : msi_core) (irq_count : Z) :
  (fst (cdx_msi_domain_alloc_irqs m irq_count) = 0 <->
   msi_setup_device_data m = 0 /\ msi_descs m = [] /\
   msi_domain_alloc_irqs m (s32 irq_count) = 0) /\
  (dev_err "Failed to allocate IRQs"
   ∈ snd (cdx_msi_domain_alloc_irqs m irq_count) <->
   msi_setup_device_data m = 0 /\ msi_descs m = [] /\
   msi_domain_alloc_irqs m (s32 irq_count) <> 0).
Proof.
  rewrite cdx_msi_domain_alloc_irqs_cases. cbv zeta.
  destruct (Z.eqb_spec (msi_setup_device_data m) 0) as [Hs | Hs].
  - destruct (msi_descs m) as [| d0 ds]; cbn [fst snd].
    + destruct (Z.eqb_spec (msi_domain_alloc_irqs m (s32 irq_count)) 0)
        as [Ha | Ha].
      * split; [tauto |]. split; [| tauto].
        intros Hin.
        repeat (apply elem_of_cons in Hin as [Hin | Hin]; [discriminate |]).
        by apply elem_of_nil in Hin.
      * split; [tauto |]. split; [tauto |].
        intros _. cbn. rewrite !elem_of_cons. tauto.
    + split; split.
      * intros E. discriminate E.
      * intros (_ & Hd & _). discriminate Hd.
      * intros Hin.
        repeat (apply elem_of_cons in Hin as [Hin | Hin]; [discriminate |]).
        by apply elem_of_nil in Hin.
      * intros (_ & Hd & _). discriminate Hd.
  - cbn [fst snd]. split; split.
    + intros E. contradiction.
    + intros (Hz & _). contradiction.
    + intros Hin.
      repeat (apply elem_of_cons in Hin as [Hin | Hin]; [discriminate |]).
      by apply elem_of_nil in Hin.
    + intros (Hz & _). contradiction.
Qed.

(** X3: the descriptor list is looked at only between
    [msi_lock_descs] and [msi_unlock_descs], and the lock is released
    before anything else happens: a failed set-up ends the call before
    the lock is taken, otherwise the log starts with set-up, lock, look,
    unlock, and what follows is the allocation, for [irq_count]
    converted to [int], and its error line. *)
Theorem cdx_msi_domain_alloc_irqs_locking (m : msi_core) (irq_count : Z) :
  let log := snd (cdx_msi_domain_alloc_irqs m irq_count) in
  (msi_setup_device_data m <> 0 ->
   log = [msi_setup_device_data_call] /\
   fst (cdx_msi_domain_alloc_irqs m irq_count) = msi_setup_device_data m) /\
  (msi_setup_device_data m = 0 ->
   exists rest,
     log = [msi_setup_device_data_call; msi_lock_descs;
            msi_first_desc_call; msi_unlock_descs] ++ rest /\
     forall c, c ∈ rest ->
       c = msi_domain_alloc_irqs_call (s32 irq_count) \/
       c = dev_err "Failed to allocate IRQs").
Proof.
  cbv zeta. rewrite cdx_msi_domain_alloc_irqs_cases. cbv zeta. split.
  - intros Hs. apply Z.eqb_neq in Hs. rewrite Hs. split; reflexivity.
  - intros Hs. rewrite Hs. change (0 =? 0) with true. cbv iota.
    destruct (msi_descs m) as [| d0 ds]; cbn [snd].
    + eexists. split; [reflexivity |]. intros c Hin.
      apply elem_of_cons in Hin as [-> | Hin]; [tauto |].
      destruct (msi_domain_alloc_irqs m (s32 irq_count) =? 0).
      * by apply elem_of_nil in Hin.
      * apply elem_of_cons in Hin as [-> | Hin]; [tauto |].
        by apply elem_of_nil in Hin.
    + exists []. split; [rewrite app_nil_r; reflexivity |].
      intros c Hin. by apply elem_of_nil in Hin.
Qed.

(** X4: enabling and disabling MSI each send one CDX_DEV_MSI_ENABLE
    request to the device's own bus and device number; enable hands the
    controller's status back unchanged, disable hands back nothing, and
    both log one error line exactly when the status is not 0. *)
Theorem cdx_msi_enable_disable (d : cdx_device) :
  let ask b := dev_configure_call (bus_num d) (dev_num d)
                                  (CDX_DEV_MSI_ENABLE b) in
  let status b := dev_configure (cdx d) (bus_num d) (dev_num d)
                                (CDX_DEV_MSI_ENABLE b) in
  cdx_enable_msi d
  = (status true,
     if status true =? 0 then [ask true]
     else [ask true; dev_err "MSI enable failed"]) /\
  cdx_disable_msi d
  = (tt,
     if status false =? 0 then [ask false]
     else [ask false; dev_err "MSI disable failed"]).
Proof.
  cbv zeta. unfold cdx_enable_msi, cdx_disable_msi.
  unfold extern, bind, when, emit, pure.
  split; destruct (_ =? 0); reflexivity.
Qed.

End MsiMore.

Lemma cdx_msi_set_desc_decodes_witness :
  Z.shiftr
    (CdxMsi.hwirq (CdxMsi.cdx_msi_set_desc
                     {| CdxMsi.desc := None; CdxMsi.hwirq := 0 |}
                     (mk_desc (mk_dev quiet 7 4) 3)))
    CdxMsi.REQ_ID_SHIFT = 7.
Proof.
  apply (cdx_msi_set_desc_decodes
           {| CdxMsi.desc := None; CdxMsi.hwirq := 0 |}
           (mk_desc (mk_dev quiet 7 4) 3));
    unfold mk_desc, mk_dev, CdxMsi.REQ_ID_SHIFT; cbn; lia.
Defined.

Lemma cdx_msi_domain_alloc_irqs_locking_witness :
  exists rest,
    snd (CdxMsi.cdx_msi_domain_alloc_irqs fresh_core 4)
    = [CdxMsi.msi_setup_device_data_call; CdxMsi.msi_lock_descs;
       CdxMsi.msi_first_desc_call; CdxMsi.msi_unlock_descs] ++ rest.
Proof.
  destruct (proj2 (cdx_msi_domain_alloc_irqs_locking fresh_core 4) eq_refl)
    as (rest & Hlog & _).
  exists rest. exact Hlog.
Defined.

(** A count of [0xFFFFFFFF] reaches the MSI core as -1. *)
Lemma cdx_msi_domain_alloc_irqs_large_count :
  CdxMsi.cdx_msi_domain_alloc_irqs MoreSamples.strict_core 4294967295
  = (- 28,
     [CdxMsi.msi_setup_device_data_call; CdxMsi.msi_lock_descs;
      CdxMsi.msi_first_desc_call; CdxMsi.msi_unlock_descs;
      CdxMsi.msi_domain_alloc_irqs_call (- 1);
      CdxMsi.dev_err "Failed to allocate IRQs"]).
Proof. vm_compute. reflexivity. Qed.

Lemma cdx_msi_domain_alloc_irqs_success_witness :
  fst (CdxMsi.cdx_msi_domain_alloc_irqs fresh_core 4) = 0.
Proof.
  apply (proj1 (cdx_msi_domain_alloc_irqs_success fresh_core 4)).
  repeat split.
Defined.

Section MsiDomain.
Import CdxMsiDomain.


(** The ways through [cdx_msi_domain_init]. *)
Lemma cdx_msi_domain_init_cases (e : fw_env) :
  cdx_msi_domain_init e =
  match of_parse_phandle e with
  | None =>
      (None, [of_parse_phandle_call;
              dev_err "msi-map not present on cdx controller"])
  | Some node =>
      match irq_find_matching_fwnode e node with
      | None =>
          (None, [of_parse_phandle_call; irq_find_matching_fwnode_call node;
                  dev_err "unable to locate ITS domain"])
      | Some p =>
          if msi_get_domain_info e p then
            match msi_create_irq_domain e p with
            | Some dom =>
                (Some dom,
                 [of_parse_phandle_call; irq_find_matching_fwnode_call node;
                  msi_get_domain_info_call p; msi_create_irq_domain_call p;
                  dev_dbg "CDX-MSI domain created"])
            | None =>
                (None,
                 [of_parse_phandle_call; irq_find_matching_fwnode_call node;
                  msi_get_domain_info_call p; msi_create_irq_domain_call p;
                  dev_err "unable to create CDX-MSI domain"])
            end
          else
            (None, [of_parse_phandle_call; irq_find_matching_fwnode_call node;
                    msi_get_domain_info_call p;
                    dev_err "unable to locate ITS domain"])
      end
  end.
Proof.
  unfold cdx_msi_domain_init, extern, bind, emit, pure.
  destruct (of_parse_phandle e) as [node |]; [| reflexivity].
  destruct (irq_find_matching_fwnode e node) as [p |]; [| reflexivity].
  destruct (msi_get_domain_info e p); [| reflexivity].
  destruct (msi_create_irq_domain e p); reflexivity.
Qed.

(** X6: [cdx_msi_domain_init] returns a domain exactly when the
    msi-map names a parent node, that node has an interrupt domain with
    MSI domain info, and the domain could be created under it, and it
    returns the created domain.  A domain is created at most once and
    only under such a parent; every failure logs exactly one error line
    and success logs none. *)
Theorem cdx_msi_domain_init_result (e : fw_env) :
  let r := cdx_msi_domain_init e in
  (forall dom,
     fst r = Some dom <->
     exists node p,
       of_parse_phandle e = Some node /\
       irq_find_matching_fwnode e node = Some p /\
       msi_get_domain_info e p = true /\
       msi_create_irq_domain e p = Some dom) /\
  (forall p, msi_create_irq_domain_call p ∈ snd r ->
     filter is_create_call (snd r) = [msi_create_irq_domain_call p] /\
     msi_get_domain_info e p = true /\
     exists node, of_parse_phandle e = Some node /\
                  irq_find_matching_fwnode e node = Some p) /\
  length (filter is_dev_err (snd r))
  = match fst r with Some _ => 0%nat | None => 1%nat end.
Proof.
  cbv zeta. rewrite cdx_msi_domain_init_cases.
  destruct (of_parse_phandle e) as [node |] eqn:Hnode.
  2:{ cbn [fst snd]. split; [| split; [| reflexivity]].
      - intros dom. split; [discriminate |].
        intros (n0 & p0 & E & _). discriminate E.
      - intros p Hin.
        repeat (apply elem_of_cons in Hin as [Hin | Hin]; [discriminate |]).
        by apply elem_of_nil in Hin. }
  destruct (irq_find_matching_fwnode e node) as [p |] eqn:Hp.
  2:{ cbn [fst snd]. split; [| split; [| reflexivity]].
      - intros dom. split; [discriminate |].
        intros (n0 & p0 & E & Ep & _). congruence.
      - intros p Hin.
        repeat (apply elem_of_cons in Hin as [Hin | Hin]; [discriminate |]).
        by apply elem_of_nil in Hin. }
  destruct (msi_get_domain_info e p) eqn:Hinfo.
  2:{ cbn [fst snd]. split; [| split; [| reflexivity]].
      - intros dom. split; [discriminate |].
        intros (n0 & p0 & E & Ep & Ei & _). congruence.
      - intros p0 Hin.
        repeat (apply elem_of_cons in Hin as [Hin | Hin]; [discriminate |]).
        by apply elem_of_nil in Hin. }
  assert (Hcall : forall p0 tail,
             is_create_call tail = false ->
             msi_create_irq_domain_call p0
             ∈ [of_parse_phandle_call; irq_find_matching_fwnode_call node;
                msi_get_domain_info_call p; msi_create_irq_domain_call p;
                tail] -> p0 = p).
  { intros p0 tail Ht Hin.
    do 3 (apply elem_of_cons in Hin as [Hin | Hin]; [discriminate |]).
    apply elem_of_cons in Hin as [Hin | Hin]; [congruence |].
    apply elem_of_cons in Hin as [Hin | Hin];
      [subst tail; discriminate | by apply elem_of_nil in Hin]. }
  destruct (msi_create_irq_domain e p) as [dom0 |] eqn:Hdom;
    cbn [fst snd]; (split; [| split; [| reflexivity]]).
  - intros dom. split.
    + intros E. exists node, p. repeat split; congruence.
    + intros (n0 & p0 & E & Ep & Ei & Ed). congruence.
  - intros p0 Hin. apply Hcall in Hin; [subst p0 | reflexivity].
    split; [reflexivity |]. split; [exact Hinfo |]. exists node. tauto.
  - intros dom. split; [discriminate |].
    intros (n0 & p0 & E & Ep & Ei & Ed). congruence.
  - intros p0 Hin. apply Hcall in Hin; [subst p0 | reflexivity].
    split; [reflexivity |]. split; [exact Hinfo |]. exists node. tauto.
Qed.

End MsiDomain.


Lemma cdx_msi_domain_init_result_witness :
  fst (CdxMsiDomain.cdx_msi_domain_init MoreSamples.sample_fw) = Some 3.
Proof.
  apply (proj1 (cdx_msi_domain_init_result MoreSamples.sample_fw)).
  exists 1, 2. repeat split.
Defined.

(** ** main.c: accepted mapping requests *)

Section MapperMore.
Import VfioCdx VfioCdxSpec.
Context `{Platform}.

(** A request that passes the bounds test is handed to
    [io_remap_pfn_range] once, at the region's page frame plus the page
    offset, for the requested length. *)
Lemma vfio_cdx_mmap_mmio_accepts region vma :
  platform_ok -> vma_ok vma ->
  PAGE_SIZE <= size region ->
  page_offset_bytes vma + request_length vma <= size region ->
  vfio_cdx_mmap_mmio region vma
  = (io_remap_pfn_range (mapped_vma region vma) (vm_start vma)
       (remap_pfn region vma) (request_length vma)
       (pgprot_device (vm_page_prot vma)),
     mapped_vma region vma, [remap_call region vma]).
Proof.
  intros ok Hvma Hsz Hfit. unfold vfio_cdx_mmap_mmio.
  rewrite (vfio_cdx_mmap_mmio_test ok region vma Hvma).
  replace ((size region <? PAGE_SIZE) ||
           (page_offset_bytes vma + request_length vma >? size region))
    with false
    by (symmetry; apply orb_false_iff; split; lia).
  destruct (offset_shift_bounds ok) as (HP & Hn & _).
  destruct Hvma as (Hse & Hend & Hpg).
  assert (Hpgoff :
            Z.land (vm_pgoff vma)
              (u32 (u32 (Z.shiftl 1 (VFIO_CDX_OFFSET_SHIFT - PAGE_SHIFT)) - 1))
            = vm_pgoff vma mod 2 ^ (VFIO_CDX_OFFSET_SHIFT - PAGE_SHIFT))
    by (rewrite (pgoff_mask ok); apply Z.land_ones; lia).
  destruct ok as (_ & _ & _ & _ & _ & _ & _ & _ & Ht0 & Ht & _).
  assert (Hpos : 0 < 2 ^ VFIO_CDX_OFFSET_SHIFT)
    by (apply Z.pow_pos_nonneg; lia).
  assert (Hlen : u64 (vm_end vma - vm_start vma) = request_length vma)
    by (unfold request_length; apply wrap_small; lia).
  unfold extern, bind, pure.
  cbn [vm_start vm_end vm_pgoff vm_flags vm_page_prot].
  rewrite Hlen, Hpgoff. reflexivity.
Qed.

End MapperMore.

Section MapperDecides.
Import VfioCdx VfioCdxSpec.
Context `{Platform}.

(** The mapping path on a request whose index names a region. *)
Lemma vfio_cdx_mmap_cases (d : cdx_device) (vdev : vfio_cdx_device)
        (vma : vm_area_struct) (regs : list vfio_cdx_region)
        (region : vfio_cdx_region) :
  platform_ok -> vma_ok vma ->
  regions vdev = Some regs ->
  mmap_index (vm_pgoff vma) < res_count d ->
  regs !! Z.to_nat (mmap_index (vm_pgoff vma)) = Some region ->
  vfio_cdx_mmap d vdev vma =
  Some (if mmap_accepts region vma
        then (io_remap_pfn_range (mapped_vma region vma) (vm_start vma)
                (remap_pfn region vma) (request_length vma)
                (pgprot_device (vm_page_prot vma)),
              mapped_vma region vma, [remap_call region vma])
        else (- EINVAL, vma, [])).
Proof.
  intros ok Hvma Hregs Hidx Hregion. unfold vfio_cdx_mmap, mmap_accepts.
  destruct (Z.geb_spec (mmap_index (vm_pgoff vma)) (res_count d)); [lia |].
  rewrite Hregs. cbn. rewrite Hregion. unfold has_flag.
  fold (mmap_refused region).
  destruct (mmap_refused region); [reflexivity |].
  destruct (read_refused region vma); [reflexivity |].
  destruct (write_refused region vma); [reflexivity |].
  cbn [negb andb]. f_equal.
  destruct (Z.leb_spec PAGE_SIZE (size region)) as [Hsz | Hsz].
  - destruct (Z.leb_spec (page_offset_bytes vma + request_length vma)
                         (size region)) as [Hfit | Hfit].
    + apply (vfio_cdx_mmap_mmio_accepts region vma ok Hvma Hsz Hfit).
    + apply (vfio_cdx_mmap_mmio_rejects ok region vma Hvma). right. lia.
  - apply (vfio_cdx_mmap_mmio_rejects ok region vma Hvma). left. lia.
Qed.

(** The array a successful open builds. *)
Lemma opened_catalog (d : cdx_device) (vdev : vfio_cdx_device) :
  platform_ok -> cdx_device_ok d ->
  vfio_cdx_open_device true d vdev
  = Some (0, {| regions :=
                  Some (catalog_entry
                          <$> take (Z.to_nat (res_count d)) (res d)) |}).
Proof.
  intros ok Hd.
  destruct (vfio_cdx_open_device_regions d vdev Hd)
    as (regs & Hrun & Hlen & Hget).
  rewrite Hrun.
  destruct Hd as [Hres Hcount].
  assert (E : regs = catalog_entry <$> take (Z.to_nat (res_count d)) (res d)).
  { apply list_eq. intros i. rewrite list_lookup_fmap.
    destruct (decide (i < Z.to_nat (res_count d))%nat) as [Hlt | Hge].
    - rewrite lookup_take_lt by exact Hlt.
      destruct (lookup_lt_is_Some_2 regs i) as [reg Hreg]; [lia |].
      destruct (Hget i reg Hreg) as (rs & Hrs & ->).
      rewrite Hreg, Hrs. cbn. f_equal. apply (open_region_zero ok).
    - rewrite lookup_take_ge by lia.
      rewrite lookup_ge_None_2 by lia. reflexivity. }
  rewrite E. reflexivity.
Qed.


(** X8: a successful open fills the array with the descriptors of the
    first [res_count] resources, in order; what the session held before
    and the unused tail of the resource array do not matter. *)
Theorem vfio_cdx_open_device_catalog (d : cdx_device) (vdev : vfio_cdx_device) :
  platform_ok -> cdx_device_ok d ->
  vfio_cdx_open_device true d vdev
  = Some (0, {| regions :=
                  Some (catalog_entry
                          <$> take (Z.to_nat (res_count d)) (res d)) |}).
Proof. apply opened_catalog. Qed.

End MapperDecides.

(** ** main.c: open and map together *)

Section OpenThenMap.
Import VfioCdx VfioCdxSpec.
Context `{Platform}.

(** A call made by [vfio_cdx_mmap] on an opened session is the call of a
    request accepted on the descriptor of the resource its index names. *)
Lemma opened_mmap_call d vdev0 vdev vma r log c :
  platform_ok -> cdx_device_ok d -> vma_ok vma ->
  vfio_cdx_open_device true d vdev0 = Some (0, vdev) ->
  vfio_cdx_mmap d vdev vma = Some (r, log) ->
  c ∈ log ->
  exists rs,
    res d !! Z.to_nat (mmap_index (vm_pgoff vma)) = Some rs /\
    mmap_index (vm_pgoff vma) < res_count d /\
    mmap_accepts (catalog_entry rs) vma = true /\
    log = [remap_call (catalog_entry rs) vma].
Proof.
  intros ok Hd Hvma Hopen Hmap Hin.
  rewrite (opened_catalog d vdev0 ok Hd) in Hopen.
  injection Hopen as <-.
  pose proof (mmap_index_range (vm_pgoff vma)) as Hrange.
  destruct (Z.lt_ge_cases (mmap_index (vm_pgoff vma)) (res_count d))
    as [Hlt | Hge].
  - destruct Hd as [Hres Hcount].
    destruct (lookup_lt_is_Some_2 (res d)
                (Z.to_nat (mmap_index (vm_pgoff vma)))) as [rs Hrs]; [lia |].
    exists rs. split; [exact Hrs |]. split; [exact Hlt |].
    set (regs0 := catalog_entry <$> take (Z.to_nat (res_count d)) (res d))
      in *.
    rewrite (vfio_cdx_mmap_cases d {| regions := Some regs0 |} vma regs0
               (catalog_entry rs) ok Hvma eq_refl Hlt) in Hmap.
    + destruct (mmap_accepts (catalog_entry rs) vma).
      * injection Hmap as <- <-. split; reflexivity.
      * injection Hmap as <- <-. by apply elem_of_nil in Hin.
    + unfold regs0. rewrite list_lookup_fmap, lookup_take_lt by lia.
      rewrite Hrs. reflexivity.
  - unfold vfio_cdx_mmap in Hmap.
    destruct (Z.geb_spec (mmap_index (vm_pgoff vma)) (res_count d)); [| lia].
    injection Hmap as <- <-. by apply elem_of_nil in Hin.
Qed.

(** X9: on a session opened for a device whose resources are ranges of
    64-bit addresses, every [io_remap_pfn_range] call of a non-empty
    request maps the requested length from the request's start address
    onto physical pages that begin at the resource's start plus the page
    offset and end inside the resource. *)
Theorem vfio_cdx_mmap_stays_in_resource (d : cdx_device)
        (vdev0 vdev : vfio_cdx_device) (vma v : vm_area_struct)
        (r : Z * vm_area_struct) (log : list extcall) (a pfn sz prot : Z) :
  platform_ok -> cdx_device_ok d ->
  (forall rs, rs ∈ res d -> resource_ok rs) ->
  vma_ok vma -> vm_start vma < vm_end vma ->
  vfio_cdx_open_device true d vdev0 = Some (0, vdev) ->
  vfio_cdx_mmap d vdev vma = Some (r, log) ->
  io_remap_pfn_range_call v a pfn sz prot ∈ log ->
  exists rs,
    res d !! Z.to_nat (mmap_index (vm_pgoff vma)) = Some rs /\
    mmap_index (vm_pgoff vma) < res_count d /\
    a = vm_start vma /\ sz = request_length vma /\
    pfn * PAGE_SIZE = start rs + page_offset_bytes vma /\
    start rs <= pfn * PAGE_SIZE /\
    pfn * PAGE_SIZE + sz <= start rs + resource_size rs.
Proof.
  intros ok Hd Hres Hvma Hne Hopen Hmap Hin.
  destruct (opened_mmap_call d vdev0 vdev vma r log _ ok Hd Hvma Hopen Hmap Hin)
    as (rs & Hrs & Hlt & Hacc & ->).
  apply list_elem_of_singleton in Hin. unfold remap_call in Hin.
  injection Hin as -> -> -> -> ->.
  exists rs. split; [exact Hrs |]. split; [exact Hlt |].
  split; [reflexivity |]. split; [reflexivity |].
  destruct (Hres rs) as (Hs0 & Hz0 & Hend);
    [eapply list_elem_of_lookup_2; exact Hrs |].
  unfold mmap_accepts in Hacc.
  apply andb_true_iff in Hacc as [Hacc Hfit].
  apply andb_true_iff in Hacc as [Hacc Hsz].
  apply andb_true_iff in Hacc as [Hacc _].
  apply andb_true_iff in Hacc as [Hmm _].
  unfold has_flag in Hmm. cbn [flags catalog_entry size] in *.
  apply (region_flags_mmap ok) in Hmm as [Hal _].
  apply Z.leb_le in Hfit, Hsz.
  pose proof (PAGE_SIZE_pos ok) as Hps.
  pose proof (page_offset_bytes_nonneg ok vma) as Hoff.
  destruct (offset_shift_bounds ok) as (HP & Hn & _).
  assert (Hu : u64 (resource_size rs) <= resource_size rs).
  { unfold u64, wrap. apply Z.mod_le; [exact Hz0 |].
    apply Z.pow_pos_nonneg; lia. }
  unfold page_aligned in Hal.
  assert (Hq : 0 <= vm_pgoff vma mod 2 ^ (VFIO_CDX_OFFSET_SHIFT - PAGE_SHIFT))
    by (apply Z.mod_pos_bound, Z.pow_pos_nonneg; lia).
  set (q := vm_pgoff vma mod 2 ^ (VFIO_CDX_OFFSET_SHIFT - PAGE_SHIFT)) in *.
  assert (Hdiv : start rs = PAGE_SIZE * (start rs / PAGE_SIZE))
    by (apply Z.div_exact; lia).
  assert (Hd0 : 0 <= start rs / PAGE_SIZE) by (apply Z.div_pos; lia).
  assert (Hraw : (start rs / PAGE_SIZE + q) * PAGE_SIZE
                 = start rs + page_offset_bytes vma).
  { unfold page_offset_bytes. fold q. lia. }
  unfold request_length in *.
  assert (Hpfn : remap_pfn (catalog_entry rs) vma = start rs / PAGE_SIZE + q).
  { unfold remap_pfn. cbn [addr catalog_entry]. fold q.
    rewrite Z.shiftr_div_pow2, <- (PAGE_SIZE_pow2 ok) by lia.
    apply wrap_small. nia. }
  rewrite Hpfn, Hraw. lia.
Qed.

(** X10: on an opened session a request that asks for write access is
    mapped only when the resource behind its region is not flagged
    read-only. *)
Theorem vfio_cdx_mmap_respects_readonly (d : cdx_device)
        (vdev0 vdev : vfio_cdx_device) (vma : vm_area_struct)
        (r : Z * vm_area_struct) (log : list extcall) (c : extcall) :
  platform_ok -> cdx_device_ok d -> vma_ok vma ->
  vfio_cdx_open_device true d vdev0 = Some (0, vdev) ->
  vfio_cdx_mmap d vdev vma = Some (r, log) ->
  c ∈ log ->
  Z.land (vm_flags vma) VM_WRITE <> 0 ->
  exists rs,
    res d !! Z.to_nat (mmap_index (vm_pgoff vma)) = Some rs /\
    Z.land (res_flags rs) IORESOURCE_READONLY = 0.
Proof.
  intros ok Hd Hvma Hopen Hmap Hin Hw.
  destruct (opened_mmap_call d vdev0 vdev vma r log c ok Hd Hvma Hopen Hmap Hin)
    as (rs & Hrs & _ & Hacc & _).
  exists rs. split; [exact Hrs |].
  unfold mmap_accepts in Hacc.
  apply andb_true_iff in Hacc as [Hacc _].
  apply andb_true_iff in Hacc as [Hacc _].
  apply andb_true_iff in Hacc as [_ Hwr].
  apply negb_true_iff in Hwr. unfold write_refused in Hwr.
  apply Z.eqb_neq in Hw. rewrite Hw in Hwr. cbn [negb] in Hwr.
  rewrite andb_true_r in Hwr. cbn [flags catalog_entry] in Hwr.
  apply (region_flags_write ok). rewrite Hwr. reflexivity.
Qed.

End OpenThenMap.

(** ** main.c: the offset windows of the regions *)

Section Windows.
Import VfioCdx VfioCdxSpec.
Context `{Platform}.

(** The page offset of a byte offset [delta] inside the window of
    region [i]. *)
Lemma window_pgoff d i delta :
  platform_ok -> cdx_device_ok d ->
  0 <= i < res_count d -> 0 <= delta < 2 ^ VFIO_CDX_OFFSET_SHIFT ->
  offset_to_pgoff (vfio_cdx_index_to_offset i + delta)
  = i * 2 ^ (VFIO_CDX_OFFSET_SHIFT - PAGE_SHIFT) + delta / PAGE_SIZE /\
  0 <= delta / PAGE_SIZE < 2 ^ (VFIO_CDX_OFFSET_SHIFT - PAGE_SHIFT).
Proof.
  intros ok Hd Hi Hdelta.
  destruct (offset_shift_bounds ok) as (HP & Hn & Hpos & _).
  rewrite (index_to_offset_exact ok d) by assumption.
  rewrite Z.shiftl_mul_pow2 by lia.
  unfold offset_to_pgoff. rewrite Z.shiftr_div_pow2 by lia.
  rewrite (PAGE_SIZE_pow2 ok).
  set (n := VFIO_CDX_OFFSET_SHIFT - PAGE_SHIFT) in *.
  assert (Hpp : 0 < 2 ^ PAGE_SHIFT) by (apply Z.pow_pos_nonneg; lia).
  assert (Hsplit : 2 ^ VFIO_CDX_OFFSET_SHIFT = 2 ^ n * 2 ^ PAGE_SHIFT).
  { rewrite <- Z.pow_add_r by lia. f_equal. lia. }
  rewrite Hsplit in *. split.
  - rewrite Z.mul_assoc, Z.div_add_l by lia. reflexivity.
  - split; [apply Z.div_pos; lia |].
    apply Z.div_lt_upper_bound; lia.
Qed.

(** X11: every byte offset inside the window of a valid region index
    (the encoded offset plus less than [2^VFIO_CDX_OFFSET_SHIFT] bytes)
    fits 64 bits and decodes to that index, with the page offset
    [delta / PAGE_SIZE]; the windows of different regions do not
    overlap. *)
Theorem offset_window_decodes (d : cdx_device) (i delta : Z) :
  platform_ok -> cdx_device_ok d ->
  0 <= i < res_count d -> 0 <= delta < 2 ^ VFIO_CDX_OFFSET_SHIFT ->
  let offset := vfio_cdx_index_to_offset i + delta in
  0 <= offset < 2 ^ 64 /\
  mmap_index (offset_to_pgoff offset) = i /\
  offset_to_pgoff offset mod 2 ^ (VFIO_CDX_OFFSET_SHIFT - PAGE_SHIFT)
  = delta / PAGE_SIZE.
Proof.
  intros ok Hd Hi Hdelta. cbv zeta.
  destruct (window_pgoff d i delta ok Hd Hi Hdelta) as [Hpg Hq].
  destruct (offset_shift_bounds ok) as (HP & Hn & Hpos & _).
  assert (Hmax : MAX_CDX_DEV_RESOURCES * 2 ^ VFIO_CDX_OFFSET_SHIFT <= 2 ^ 64)
    by (destruct ok as (_ & _ & _ & _ & _ & _ & _ & _ & _ & _ & _ & Hm);
        exact Hm).
  assert (Hm32 : 0 <= MAX_CDX_DEV_RESOURCES < 2 ^ 32)
    by (destruct ok as (_ & _ & _ & _ & _ & _ & _ & _ & _ & _ & Hm & _);
        exact Hm).
  pose proof (proj2 Hd) as Hcount.
  assert (Hpn : 0 < 2 ^ (VFIO_CDX_OFFSET_SHIFT - PAGE_SHIFT))
    by (apply Z.pow_pos_nonneg; lia).
  split; [| split].
  - rewrite (index_to_offset_exact ok d) by assumption.
    rewrite Z.shiftl_mul_pow2 by lia. nia.
  - unfold mmap_index. rewrite Hpg.
    rewrite Z.shiftr_div_pow2 by lia.
    rewrite Z.div_add_l by lia.
    rewrite (Z.div_small (delta / PAGE_SIZE)) by lia.
    rewrite Z.add_0_r. apply wrap_small. lia.
  - rewrite Hpg. rewrite Z.add_comm, Z.mod_add by lia.
    apply Z.mod_small. lia.
Qed.

End Windows.

(** ** main.c: queries on an opened session *)

Section Queries.
Import VfioCdx VfioCdxSpec.
Context `{Platform}.

(** GET_REGION_INFO for a valid index on an opened session. *)
Lemma get_region_info_opened d vdev0 vdev arg info0 :
  platform_ok -> cdx_device_ok d ->
  vfio_cdx_open_device true d vdev0 = Some (0, vdev) ->
  readable arg = Some info0 ->
  region_info_minsz <= ri_argsz info0 ->
  0 <= ri_index info0 < res_count d ->
  exists rs,
    res d !! Z.to_nat (ri_index info0) = Some rs /\
    regions vdev ≫= (.!! Z.to_nat (ri_index info0))
    = Some (catalog_entry rs) /\
    vfio_cdx_ioctl_get_region_info d vdev arg
    = Some (if writable arg
            then (0, Some {| ri_argsz := ri_argsz info0;
                             ri_flags := region_flags rs;
                             ri_index := ri_index info0;
                             ri_size := u64 (resource_size rs);
                             ri_offset :=
                               ri_index info0 * 2 ^ VFIO_CDX_OFFSET_SHIFT |})
            else (- EFAULT, None)).
Proof.
  intros ok Hd Hopen Hread Hsz Hidx.
  rewrite (opened_catalog d vdev0 ok Hd) in Hopen. injection Hopen as <-.
  pose proof Hd as [Hres Hcount].
  destruct (lookup_lt_is_Some_2 (res d) (Z.to_nat (ri_index info0)))
    as [rs Hrs]; [lia |].
  exists rs. split; [exact Hrs |].
  assert (Hlook :
            (catalog_entry <$> take (Z.to_nat (res_count d)) (res d))
              !! Z.to_nat (ri_index info0) = Some (catalog_entry rs)).
  { rewrite list_lookup_fmap, lookup_take_lt by lia.
    rewrite Hrs. reflexivity. }
  split; [cbn; exact Hlook |].
  unfold vfio_cdx_ioctl_get_region_info. rewrite Hread.
  destruct (Z.ltb_spec (ri_argsz info0) region_info_minsz); [lia |].
  destruct (Z.geb_spec (ri_index info0) (res_count d)); [lia |].
  cbn. rewrite Hlook. cbn [flags size catalog_entry].
  rewrite (index_to_offset_exact ok d) by assumption.
  destruct (offset_shift_bounds ok) as (HP & Hn & _).
  rewrite Z.shiftl_mul_pow2 by lia. destruct (writable arg); reflexivity.
Qed.

(** X12: on an opened session GET_REGION_INFO for a valid index reports
    the resource behind it: the size of the resource, the flags computed
    at open, and the index shifted left by the offset shift as offset;
    argument size and index are handed back as they came. *)
Theorem get_region_info_reports_resource (d : cdx_device)
        (vdev0 vdev : vfio_cdx_device) (arg : user_ptr vfio_region_info)
        (info0 : vfio_region_info) :
  platform_ok -> cdx_device_ok d ->
  vfio_cdx_open_device true d vdev0 = Some (0, vdev) ->
  readable arg = Some info0 -> writable arg = true ->
  region_info_minsz <= ri_argsz info0 ->
  0 <= ri_index info0 < res_count d ->
  exists rs,
    res d !! Z.to_nat (ri_index info0) = Some rs /\
    vfio_cdx_ioctl_get_region_info d vdev arg
    = Some (0, Some {| ri_argsz := ri_argsz info0;
                       ri_flags := region_flags rs;
                       ri_index := ri_index info0;
                       ri_size := u64 (resource_size rs);
                       ri_offset :=
                         ri_index info0 * 2 ^ VFIO_CDX_OFFSET_SHIFT |}).
Proof.
  intros ok Hd Hopen Hread Hwrite Hsz Hidx.
  destruct (get_region_info_opened d vdev0 vdev arg info0
              ok Hd Hopen Hread Hsz Hidx) as (rs & Hrs & _ & Hcall).
  exists rs. split; [exact Hrs |]. rewrite Hcall, Hwrite. reflexivity.
Qed.

End Queries.

Section QueryThenMap.
Import VfioCdx VfioCdxSpec.
Context `{Platform}.


End QueryThenMap.

(** ** main.c: the commands *)

Section Commands.
Import VfioCdx VfioCdxIoctl.
Context `{Platform} `{Uapi}.

(** X14: the counts GET_INFO reports are the index ranges of the two
    per-index queries.  It reports [res_count] regions and one interrupt
    group; on an open session a well-formed GET_REGION_INFO request
    succeeds exactly for the indices below the reported region count and
    gets -EINVAL for the others, and a well-formed GET_IRQ_INFO request
    succeeds exactly for the indices below the reported group count. *)
Theorem get_info_counts_match (d : cdx_device) (vdev : vfio_cdx_device)
        (garg : user_ptr vfio_device_info) (ginfo : vfio_device_info) :
  platform_ok -> cdx_device_ok d -> session_open d vdev ->
  vfio_cdx_ioctl_get_info d garg = (0, Some ginfo) ->
  di_num_regions ginfo = res_count d /\ di_num_irqs ginfo = 1 /\
  (forall arg info0,
     readable arg = Some info0 -> writable arg = true ->
     region_info_minsz <= ri_argsz info0 -> 0 <= ri_index info0 ->
     ((exists info, vfio_cdx_ioctl_get_region_info d vdev arg
                    = Some (0, Some info)) <->
      ri_index info0 < di_num_regions ginfo) /\
     (di_num_regions ginfo <= ri_index info0 ->
      vfio_cdx_ioctl_get_region_info d vdev arg = Some (- EINVAL, None))) /\
  (forall arg info0,
     readable arg = Some info0 -> writable arg = true ->
     irq_info_minsz <= ii_argsz info0 -> 0 <= ii_index info0 ->
     (fst (vfio_cdx_ioctl_get_irq_info d arg) = 0 <->
      ii_index info0 < di_num_irqs ginfo)).
Proof.
  intros ok Hd (regs & Hregs & Hlen) Hinfo.
  unfold vfio_cdx_ioctl_get_info in Hinfo.
  destruct (readable garg) as [g0 |]; [| discriminate].
  destruct (di_argsz g0 <? device_info_minsz); [discriminate |].
  destruct (writable garg); [| discriminate].
  injection Hinfo as <-. cbn [di_num_regions di_num_irqs].
  assert (Hcount : u32 (res_count d) = res_count d).
  { destruct Hd as [_ Hc].
    destruct ok as (_ & _ & _ & _ & _ & _ & _ & _ & _ & _ & Hm & _).
    apply wrap_small. lia. }
  rewrite Hcount. split; [reflexivity |]. split; [reflexivity |]. split.
  - intros arg info0 Hread Hwrite Hsz Hi0.
    unfold vfio_cdx_ioctl_get_region_info. rewrite Hread, Hwrite.
    destruct (Z.ltb_spec (ri_argsz info0) region_info_minsz); [lia |].
    destruct (Z.geb_spec (ri_index info0) (res_count d)) as [Hge | Hlt].
    + split; [| reflexivity]. split; [| lia].
      intros [info E]. discriminate E.
    + split; [| lia]. split; [intros _; exact Hlt |]. intros _.
      rewrite Hregs. cbn.
      destruct (lookup_lt_is_Some_2 regs (Z.to_nat (ri_index info0)))
        as [region Hregion]; [lia |].
      rewrite Hregion. eexists. reflexivity.
  - intros arg info0 Hread Hwrite Hsz Hi0.
    unfold vfio_cdx_ioctl_get_irq_info. rewrite Hread, Hwrite.
    destruct (Z.ltb_spec (ii_argsz info0) irq_info_minsz); [lia |].
    destruct (Z.geb_spec (ii_index info0) 1); cbn [fst].
    + split; [discriminate | lia].
    + split; [lia | reflexivity].
Qed.

(** X15: the three queries copy a result back to the caller exactly
    when they return 0, and their only failures are -EFAULT and
    -EINVAL. *)
Theorem queries_write_on_success_only (d : cdx_device)
        (vdev : vfio_cdx_device) :
  (forall arg,
     let r := vfio_cdx_ioctl_get_info d arg in
     (fst r = 0 <-> is_Some (snd r)) /\
     (fst r = 0 \/ fst r = - EFAULT \/ fst r = - EINVAL)) /\
  (forall arg,
     let r := vfio_cdx_ioctl_get_irq_info d arg in
     (fst r = 0 <-> is_Some (snd r)) /\
     (fst r = 0 \/ fst r = - EFAULT \/ fst r = - EINVAL)) /\
  (forall arg r,
     vfio_cdx_ioctl_get_region_info d vdev arg = Some r ->
     (fst r = 0 <-> is_Some (snd r)) /\
     (fst r = 0 \/ fst r = - EFAULT \/ fst r = - EINVAL)).
Proof.
  assert (Hfail : forall e : Z, e = - EFAULT \/ e = - EINVAL ->
            ((e = 0 <-> is_Some (@None vfio_device_info)) /\
             (e = 0 \/ e = - EFAULT \/ e = - EINVAL)) /\
            ((e = 0 <-> is_Some (@None vfio_irq_info)) /\
             (e = 0 \/ e = - EFAULT \/ e = - EINVAL)) /\
            ((e = 0 <-> is_Some (@None vfio_region_info)) /\
             (e = 0 \/ e = - EFAULT \/ e = - EINVAL))).
  { intros e He.
    assert (e <> 0) by (destruct He as [-> | ->]; discriminate).
    repeat split; try tauto; intros [x Hx]; discriminate Hx. }
  split; [| split].
  - intros arg. cbv zeta. unfold vfio_cdx_ioctl_get_info.
    destruct (readable arg) as [i0 |]; [| apply Hfail; tauto].
    destruct (_ <? _); [apply Hfail; tauto |].
    destruct (writable arg); [| apply Hfail; tauto].
    cbn. split; [split; eauto | tauto].
  - intros arg. cbv zeta. unfold vfio_cdx_ioctl_get_irq_info.
    destruct (readable arg) as [i0 |]; [| apply Hfail; tauto].
    destruct (_ <? _); [apply Hfail; tauto |].
    destruct (_ >=? _); [apply Hfail; tauto |].
    destruct (writable arg); [| apply Hfail; tauto].
    cbn. split; [split; eauto | tauto].
  - intros arg r. unfold vfio_cdx_ioctl_get_region_info.
    destruct (readable arg) as [i0 |];
      [| intros E; injection E as <-; apply Hfail; tauto].
    destruct (_ <? _); [intros E; injection E as <-; apply Hfail; tauto |].
    destruct (_ >=? _); [intros E; injection E as <-; apply Hfail; tauto |].
    destruct (regions vdev ≫= _); [| discriminate].
    destruct (writable arg);
      [| intros E; injection E as <-; apply Hfail; tauto].
    intros E. injection E as <-. cbn. split; [split; eauto | tauto].
Qed.

End Commands.

Section Dispatch.
Import VfioCdx VfioCdxIoctl.
Context `{Platform} `{Uapi}.

(** The ways through [vfio_cdx_ioctl_set_irqs] once the header was
    read. *)
Lemma vfio_cdx_ioctl_set_irqs_cases (e : irq_core) (d : cdx_device)
      (hdr : vfio_irq_set) :
  let v := vfio_set_irqs_validate_and_prepare e hdr (s32 (num_msi d)) 1 in
  let checked :=
    vfio_set_irqs_validate_and_prepare_call hdr (s32 (num_msi d)) 1 in
  let handler data :=
    vfio_cdx_set_irqs_ioctl e (is_flags hdr) (is_index hdr) (is_start hdr)
                            (is_count hdr) data in
  let handled data :=
    vfio_cdx_set_irqs_ioctl_call (is_flags hdr) (is_index hdr)
                                 (is_start hdr) (is_count hdr) data in
  vfio_cdx_ioctl_set_irqs e d (Some hdr) =
  if fst v =? 0 then
    if snd v =? 0 then
      (handler None, [checked; handled None; kfree_call None])
    else
      match memdup_user e (snd v) with
      | inl err => (err, [checked; memdup_user_call (snd v)])
      | inr bytes =>
          (handler (Some bytes),
           [checked; memdup_user_call (snd v); handled (Some bytes);
            kfree_call (Some bytes)])
      end
  else (fst v, [checked]).
Proof.
  cbv zeta. unfold vfio_cdx_ioctl_set_irqs, extern, bind, emit, pure.
  destruct (vfio_set_irqs_validate_and_prepare e hdr (s32 (num_msi d)) 1)
    as [vret dsz].
  cbn [fst snd].
  destruct (vret =? 0); cbn [negb]; [| reflexivity].
  destruct (dsz =? 0); cbn [negb]; [reflexivity |].
  destruct (memdup_user e dsz); reflexivity.
Qed.

(** X16: SET_IRQS runs the interrupt handler only for a header that was
    read and validated against the device's number of vectors, converted
    to [int], and one interrupt group, with the header's own fields, and
    returns the handler's result; the data handed to the handler is none
    when the validated data size is 0, and otherwise the buffer
    [memdup_user] delivered; that same value is passed to [kfree]
    exactly once, after the handler, and nothing is freed when the
    handler did not run. *)
Theorem vfio_cdx_ioctl_set_irqs_buffer (e : irq_core) (d : cdx_device)
        (arg : option vfio_irq_set) :
  let r := vfio_cdx_ioctl_set_irqs e d arg in
  (forall f i s c data,
     vfio_cdx_set_irqs_ioctl_call f i s c data ∈ snd r ->
     exists hdr,
       arg = Some hdr /\
       fst (vfio_set_irqs_validate_and_prepare e hdr (s32 (num_msi d)) 1) = 0 /\
       (f, i, s, c)
       = (is_flags hdr, is_index hdr, is_start hdr, is_count hdr) /\
       fst r = vfio_cdx_set_irqs_ioctl e f i s c data /\
       data =
         (let size :=
            snd (vfio_set_irqs_validate_and_prepare e hdr
                   (s32 (num_msi d)) 1) in
          if size =? 0 then None
          else match memdup_user e size with
               | inr bytes => Some bytes
               | inl _ => None
               end) /\
       exists before,
         snd r = before ++ [vfio_cdx_set_irqs_ioctl_call f i s c data;
                            kfree_call data] /\
         filter is_kfree before = [] /\
         filter is_handler_call before = []) /\
  (filter is_handler_call (snd r) = [] -> filter is_kfree (snd r) = []).
Proof.
  cbv zeta. destruct arg as [hdr |].
  2:{ cbn. split; [| reflexivity]. intros f i s c data Hin.
      by apply elem_of_nil in Hin. }
  rewrite vfio_cdx_ioctl_set_irqs_cases. cbv zeta.
  destruct (vfio_set_irqs_validate_and_prepare e hdr (s32 (num_msi d)) 1)
    as [vret dsz] eqn:Hv.
  cbn [fst snd].
  destruct (Z.eqb_spec vret 0) as [-> | Hne].
  2:{ cbn [fst snd]. split; [| reflexivity]. intros f i s c data Hin.
      apply elem_of_cons in Hin as [Hin | Hin]; [discriminate |].
      by apply elem_of_nil in Hin. }
  destruct (Z.eqb_spec dsz 0) as [-> | Hsz].
  - cbn [fst snd]. split; [| intros E; discriminate E].
    intros f i s c data Hin.
    apply elem_of_cons in Hin as [Hin | Hin]; [discriminate |].
    apply elem_of_cons in Hin as [Hin | Hin].
    2:{ apply elem_of_cons in Hin as [Hin | Hin]; [discriminate |].
        by apply elem_of_nil in Hin. }
    injection Hin as -> -> -> -> ->.
    exists hdr. rewrite Hv. cbn [fst snd].
    do 5 (split; [reflexivity |]).
    exists [vfio_set_irqs_validate_and_prepare_call hdr (s32 (num_msi d)) 1].
    repeat split.
  - destruct (memdup_user e dsz) as [err | bytes] eqn:Hdup; cbn [fst snd].
    + split; [| reflexivity]. intros f i s c data Hin.
      do 2 (apply elem_of_cons in Hin as [Hin | Hin]; [discriminate |]).
      by apply elem_of_nil in Hin.
    + split; [| intros E; discriminate E].
      intros f i s c data Hin.
      do 2 (apply elem_of_cons in Hin as [Hin | Hin]; [discriminate |]).
      apply elem_of_cons in Hin as [Hin | Hin].
      2:{ apply elem_of_cons in Hin as [Hin | Hin]; [discriminate |].
          by apply elem_of_nil in Hin. }
      injection Hin as -> -> -> -> ->.
      exists hdr. rewrite Hv. cbn [fst snd].
      do 4 (split; [reflexivity |]).
      split.
      { apply Z.eqb_neq in Hsz. rewrite Hsz, Hdup. reflexivity. }
      exists [vfio_set_irqs_validate_and_prepare_call hdr (s32 (num_msi d)) 1;
              memdup_user_call dsz].
      repeat split.
Qed.


End Dispatch.

(** ** main.c: probe and remove *)

Section Lifetime.
Import VfioCdxIoctl.

(** X18: a device [vfio_cdx_probe] allocated is put exactly once over
    its life: at once when registration fails, by [vfio_cdx_remove]
    otherwise.  Probe returns the registration result, sets the driver
    data exactly when it returns 0, and remove unregisters before it
    puts; when the allocation itself fails, probe returns that error
    and does nothing else. *)
Theorem vfio_cdx_probe_remove_balance (c : vfio_core) :
  (forall err,
     vfio_alloc_device c = inl err ->
     vfio_cdx_probe c = (err, [vfio_alloc_device_call])) /\
  (forall v,
     vfio_alloc_device c = inr v ->
     let p := vfio_cdx_probe c in
     let life :=
       snd p ++ (if fst p =? 0 then snd (vfio_cdx_remove v) else []) in
     fst p = vfio_register_group_dev c v /\
     (dev_set_drvdata_call v ∈ snd p <-> fst p = 0) /\
     filter is_put life = [vfio_put_device_call v] /\
     (fst p = 0 ->
      exists before,
        life = before ++ [vfio_unregister_group_dev_call v;
                          vfio_put_device_call v])).
Proof.
  unfold vfio_cdx_probe, vfio_cdx_remove, extern, bind, emit, pure. split.
  - intros err ->. reflexivity.
  - intros v ->. cbv zeta.
    destruct (Z.eqb_spec (vfio_register_group_dev c v) 0) as [E | E];
      cbn [negb fst snd].
    + rewrite E. change (0 =? 0) with true. cbv iota.
      split; [reflexivity |]. split.
      * split; [reflexivity |]. intros _. cbn. rewrite !elem_of_cons. tauto.
      * split; [reflexivity |]. intros _.
        exists [vfio_alloc_device_call; vfio_register_group_dev_call v;
                dev_set_drvdata_call v].
        reflexivity.
    + apply Z.eqb_neq in E. rewrite E.
      apply Z.eqb_neq in E.
      split; [reflexivity |]. split; [| split; [reflexivity | contradiction]].
      split; [| contradiction].
      intros Hin. cbn in Hin.
      repeat (apply elem_of_cons in Hin as [Hin | Hin]; [discriminate |]).
      by apply elem_of_nil in Hin.
Qed.

End Lifetime.

(** ** The properties at the sample device *)

Ltac sample_resources :=
  let rs := fresh "rs" in
  let Hin := fresh "Hin" in
  intros rs Hin;
  repeat (apply elem_of_cons in Hin as [-> | Hin];
          [unfold VfioCdxSpec.resource_ok, VfioCdx.arm64_4k; cbn; lia |]);
  by apply elem_of_nil in Hin.


Lemma vfio_cdx_open_device_catalog_witness :
  @VfioCdx.vfio_cdx_open_device VfioCdx.arm64_4k true sample_dev closed_session
  = Some (0, sample_session).
Proof.
  etransitivity.
  - apply (@vfio_cdx_open_device_catalog VfioCdx.arm64_4k sample_dev
             closed_session); concrete.
  - vm_compute. reflexivity.
Defined.

Lemma vfio_cdx_mmap_stays_in_resource_witness :
  exists rs,
    res sample_dev !! 0%nat = Some rs /\
    1 * 4096 = start rs + 0 /\
    1 * 4096 + 4096 <= start rs + (end_ rs - start rs + 1).
Proof.
  destruct (@vfio_cdx_mmap_stays_in_resource VfioCdx.arm64_4k sample_dev
              closed_session sample_session (request 0 4096 3)
              MoreSamples.mapped_request (0, MoreSamples.mapped_request)
              [VfioCdx.io_remap_pfn_range_call MoreSamples.mapped_request
                 65536 1 4096 0]
              65536 1 4096 0)
    as (rs & Hrs & _ & _ & _ & Hpfn & _ & Hend).
  - concrete.
  - concrete.
  - sample_resources.
  - concrete.
  - cbn. lia.
  - vm_compute. reflexivity.
  - vm_compute. reflexivity.
  - apply list_elem_of_singleton. reflexivity.
  - exists rs. split; [exact Hrs |]. split; [exact Hpfn | exact Hend].
Defined.

Lemma vfio_cdx_mmap_respects_readonly_witness :
  exists rs,
    res sample_dev !! 0%nat = Some rs /\ Z.land (res_flags rs) 16384 = 0.
Proof.
  apply (@vfio_cdx_mmap_respects_readonly VfioCdx.arm64_4k sample_dev
           closed_session sample_session (request 0 4096 3)
           (0, MoreSamples.mapped_request)
           [VfioCdx.io_remap_pfn_range_call MoreSamples.mapped_request
              65536 1 4096 0]
           (VfioCdx.io_remap_pfn_range_call MoreSamples.mapped_request
              65536 1 4096 0)).
  - concrete.
  - concrete.
  - concrete.
  - vm_compute. reflexivity.
  - vm_compute. reflexivity.
  - apply list_elem_of_singleton. reflexivity.
  - vm_compute. discriminate.
Defined.

Lemma offset_window_decodes_witness :
  @VfioCdx.mmap_index VfioCdx.arm64_4k
    (@VfioCdx.offset_to_pgoff VfioCdx.arm64_4k
       (@VfioCdx.vfio_cdx_index_to_offset VfioCdx.arm64_4k 1 + 8192)) = 1.
Proof.
  apply (@offset_window_decodes VfioCdx.arm64_4k sample_dev 1 8192).
  - concrete.
  - concrete.
  - cbn. lia.
  - cbn. lia.
Defined.

Lemma get_region_info_reports_resource_witness :
  exists rs,
    res sample_dev !! 0%nat = Some rs /\
    @VfioCdx.vfio_cdx_ioctl_get_region_info VfioCdx.arm64_4k sample_dev
      sample_session (MoreSamples.region_query 0)
    = Some (0, Some {| VfioCdx.ri_argsz := 32;
                       VfioCdx.ri_flags :=
                         @VfioCdx.region_flags VfioCdx.arm64_4k rs;
                       VfioCdx.ri_index := 0;
                       VfioCdx.ri_size :=
                         u64 (@VfioCdx.resource_size VfioCdx.arm64_4k rs);
                       VfioCdx.ri_offset := 0 * 2 ^ 40 |}).
Proof.
  apply (@get_region_info_reports_resource VfioCdx.arm64_4k sample_dev
           closed_session sample_session (MoreSamples.region_query 0)
           (MoreSamples.region_info_request 0)).
  - concrete.
  - concrete.
  - vm_compute. reflexivity.
  - reflexivity.
  - reflexivity.
  - cbn. lia.
  - cbn. lia.
Defined.


Lemma get_info_counts_match_witness :
  VfioCdxIoctl.di_num_regions
    {| VfioCdxIoctl.di_argsz := 16; VfioCdxIoctl.di_flags := 257;
       VfioCdxIoctl.di_num_regions := 3; VfioCdxIoctl.di_num_irqs := 1 |}
  = res_count sample_dev.
Proof.
  apply (@get_info_counts_match VfioCdx.arm64_4k VfioCdxIoctl.linux_uapi
           sample_dev sample_session MoreSamples.info_query).
  - concrete.
  - concrete.
  - eexists. split; reflexivity.
  - vm_compute. reflexivity.
Defined.

Lemma queries_write_on_success_only_witness :
  fst (0, Some {| VfioCdx.ri_argsz := 32; VfioCdx.ri_flags := 7;
                  VfioCdx.ri_index := 0; VfioCdx.ri_size := 4096;
                  VfioCdx.ri_offset := 0 |}) = 0 <->
  is_Some (snd (0, Some {| VfioCdx.ri_argsz := 32; VfioCdx.ri_flags := 7;
                           VfioCdx.ri_index := 0; VfioCdx.ri_size := 4096;
                           VfioCdx.ri_offset := 0 |})).
Proof.
  apply (proj2 (proj2 (@queries_write_on_success_only VfioCdx.arm64_4k
                         VfioCdxIoctl.linux_uapi sample_dev sample_session))
           (MoreSamples.region_query 0)).
  vm_compute. reflexivity.
Defined.

Lemma vfio_cdx_ioctl_set_irqs_buffer_witness :
  fst (@VfioCdxIoctl.vfio_cdx_ioctl_set_irqs MoreSamples.sample_irq_core
         sample_dev (Some MoreSamples.sample_irq_set)) = 0.
Proof.
  destruct (proj1 (@vfio_cdx_ioctl_set_irqs_buffer
                     MoreSamples.sample_irq_core sample_dev
                     (Some MoreSamples.sample_irq_set))
              36 0 0 2 (Some [0; 0; 0; 0; 0; 0; 0; 0]))
    as (hdr & _ & _ & _ & Hret & _).
  - vm_compute. do 2 apply list_elem_of_further. apply list_elem_of_here.
  - exact Hret.
Defined.


Lemma vfio_cdx_probe_remove_balance_witness :
  filter VfioCdxIoctl.is_put
    (snd (VfioCdxIoctl.vfio_cdx_probe MoreSamples.refusing_core) ++
     (if fst (VfioCdxIoctl.vfio_cdx_probe MoreSamples.refusing_core) =? 0
      then snd (VfioCdxIoctl.vfio_cdx_remove 9) else []))
  = [VfioCdxIoctl.vfio_put_device_call 9].
Proof.
  apply (proj2 (vfio_cdx_probe_remove_balance MoreSamples.refusing_core) 9).
  reflexivity.
Defined.
